(** * go-hotkey: registry, handle life cycle, worker loop and edge detector

    A shallow embedding of [hotkey.go] and [win.go] (package
    [hotkey]) together with the properties of the registration and
    event-delivery engine.

    Go strings are byte strings and are embedded as [string]; the unsigned
    machine integers of the source are embedded as [Z] with the wrap-around
    written out; the process-wide map [registeredHotkey] is a [gmap] from
    identity strings to handle addresses, and the handles ([*Hotkey]) live in
    an explicit heap. *)

From Stdlib Require Import ZArith String Ascii List Bool Lia Permutation.
From stdpp Require Import base option list gmap strings.
Import ListNotations.

Local Open Scope string_scope.

(** ** Go's [strings] package, as far as [getHkInfo] uses it *)

Module GoStrings.

(** [utf8.DecodeRuneInString]: only the width of the first encoded rune is
    needed.  An invalid or truncated encoding has width 1. *)
Definition byte_of (a : ascii) : Z := Z.of_N (N_of_ascii a).

Definition is_cont (lo hi : Z) (s : string) : bool :=
  match s with
  | String a _ => (lo <=? byte_of a)%Z && (byte_of a <=? hi)%Z
  | EmptyString => false
  end.

Definition tail (s : string) : string :=
  match s with
  | String _ s' => s'
  | EmptyString => EmptyString
  end.

(** The accepted range of the second byte, from the lead byte
    (the tables [first] and [acceptRanges] of package [utf8]). *)
Definition lead_info (b : Z) : option (nat * Z * Z) :=
  if (b <? 0xC2)%Z then None
  else if (b <=? 0xDF)%Z then Some (2%nat, 0x80%Z, 0xBF%Z)
  else if (b =? 0xE0)%Z then Some (3%nat, 0xA0%Z, 0xBF%Z)
  else if (b =? 0xED)%Z then Some (3%nat, 0x80%Z, 0x9F%Z)
  else if (b <=? 0xEF)%Z then Some (3%nat, 0x80%Z, 0xBF%Z)
  else if (b =? 0xF0)%Z then Some (4%nat, 0x90%Z, 0xBF%Z)
  else if (b <=? 0xF3)%Z then Some (4%nat, 0x80%Z, 0xBF%Z)
  else if (b =? 0xF4)%Z then Some (4%nat, 0x80%Z, 0x8F%Z)
  else None.

Definition DecodeRuneInString_size (s : string) : nat :=
  match s with
  | EmptyString => 0
  | String a s1 =>
      match lead_info (byte_of a) with
      | None => 1
      | Some (sz, lo, hi) =>
          if negb (is_cont lo hi s1) then 1
          else if (sz <=? 2)%nat then 2
          else if negb (is_cont 0x80 0xBF (tail s1)) then 1
          else if (sz <=? 3)%nat then 3
          else if negb (is_cont 0x80 0xBF (tail (tail s1))) then 1
          else 4
      end
  end.

(** [explode]: one element per encoded rune; an invalid byte is an element
    of its own (older Go releases put the three bytes of U+FFFD in its
    place; neither is one of the letters [getHkInfo] looks for). *)
Fixpoint explode_fuel (fuel : nat) (s : string) : list string :=
  match fuel, s with
  | S fuel', String _ _ =>
      let size := DecodeRuneInString_size s in
      substring 0 size s
        :: explode_fuel fuel' (substring size (String.length s - size) s)
  | _, _ => []
  end.

Definition explode (s : string) : list string :=
  explode_fuel (String.length s) s.

(** [genSplit] for a non-empty separator: cut at every non-overlapping
    occurrence of [sep], scanning from the left.  [skip] counts the bytes
    of a separator still to be passed over, [cur] is the element being
    collected. *)
Fixpoint genSplit (sep s : string) (skip : nat) (cur : string)
  : list string :=
  match s with
  | EmptyString => [cur]
  | String c s' =>
      match skip with
      | S k => genSplit sep s' k cur
      | O =>
          if String.prefix sep s
          then cur :: genSplit sep s' (String.length sep - 1) ""
          else genSplit sep s' 0 (String.append cur (String c ""))
      end
  end.

(** [strings.Split(s, sep)] *)
Definition Split (s sep : string) : list string :=
  if String.eqb sep "" then explode s else genSplit sep s 0 "".

(** [strings.Join(elems, sep)] *)
Definition Join (elems : list string) (sep : string) : string :=
  String.concat sep elems.

End GoStrings.

Import GoStrings.

(** * Package [hotkey] *)

Module hotkey.

(** ** [hotkey.go]: identity normalisation *)

Definition k0_init : list string := [""; ""; ""; ""].

(** The loop body of the short form, lines 120-131. *)
Definition shortStep (k0 : list string) (v : string) : list string :=
  if String.eqb v "w" then <[0%nat := "w"]> k0
  else if String.eqb v "c" then <[1%nat := "c"]> k0
  else if String.eqb v "s" then <[2%nat := "s"]> k0
  else if String.eqb v "a" then <[3%nat := "a"]> k0
  else k0.

(** The loop body of the long form, lines 133-146. *)
Definition longStep (st : list string * string) (v : string)
  : list string * string :=
  let '(k0, keyName) := st in
  if String.eqb v "win" then (<[0%nat := "w"]> k0, keyName)
  else if String.eqb v "ctrl" then (<[1%nat := "c"]> k0, keyName)
  else if String.eqb v "shift" then (<[2%nat := "s"]> k0, keyName)
  else if String.eqb v "alt" then (<[3%nat := "a"]> k0, keyName)
  else (k0, v).

Definition normSignal (signalStr : string) : string :=
  if String.eqb signalStr "up" || String.eqb signalStr "press"
  then signalStr else "down".

(** [getHkInfo]; the package variable [splitStr] (set by [SetSplitStr],
    initially ["_"]) is its first argument. *)
Definition getHkInfo (splitStr hkStr signalStr : string)
  : string * string * string :=
  let hkList := Split hkStr splitStr in
  let hkLen := List.length hkList in
  if (hkLen =? 0)%nat then ("", "", "")
  else
    let '(k0, keyName) :=
      if (hkLen =? 2)%nat
      then (fold_left shortStep (Split (nth 0 hkList "") "") k0_init,
            nth 1 hkList "")
      else fold_left longStep hkList (k0_init, "")
    in
    (Join k0 "", keyName, normSignal signalStr).

Definition modifierSortOf (r : string * string * string) : string := r.1.1.
Definition keyNameOf (r : string * string * string) : string := r.1.2.
Definition signalOf (r : string * string * string) : string := r.2.

(** The contents of [k0] in terms of the four marks it can hold. *)
Definition k0_of (w c s a : bool) : list string :=
  [ if w then "w" else ""; if c then "c" else "";
    if s then "s" else ""; if a then "a" else "" ].

(** The strings [getHkInfo] can return as [modifierSort]: the sub-words
    of ["wcsa"]. *)
Definition canon (w c s a : bool) : string :=
  Join (k0_of w c s a) "".

(** Whether the token [t] occurs in [l]. *)
Definition has (t : string) (l : list string) : bool :=
  existsb (fun v => String.eqb v t) l.

(** The four tokens the long form takes for modifiers. *)
Definition isModWord (v : string) : bool :=
  String.eqb v "win" || String.eqb v "ctrl" || String.eqb v "shift"
  || String.eqb v "alt".

(** ** [win.go] and [hotkey.go]: data *)

Local Open Scope Z_scope.

(** [type Modifier uint8] and [type Key uint16]. *)
Definition Modifier := Z.
Definition Key := Z.

Definition ModAlt : Modifier := 0x1.
Definition ModCtrl : Modifier := 0x2.
Definition ModShift : Modifier := 0x4.
Definition ModWin : Modifier := 0x8.

Definition keyCodeWin : gmap string Key :=
  list_to_map
    [ ("space", 0x20); ("0", 0x30); ("1", 0x31); ("2", 0x32); ("3", 0x33);
      ("4", 0x34); ("5", 0x35); ("6", 0x36); ("7", 0x37); ("8", 0x38);
      ("9", 0x39); ("a", 0x41); ("b", 0x42); ("c", 0x43); ("d", 0x44);
      ("e", 0x45); ("f", 0x46); ("g", 0x47); ("h", 0x48); ("i", 0x49);
      ("j", 0x4A); ("k", 0x4B); ("l", 0x4C); ("m", 0x4D); ("n", 0x4E);
      ("o", 0x4F); ("p", 0x50); ("q", 0x51); ("r", 0x52); ("s", 0x53);
      ("t", 0x54); ("u", 0x55); ("v", 0x56); ("w", 0x57); ("x", 0x58);
      ("y", 0x59); ("z", 0x5A);
      ("return", 0x0D); ("escape", 0x1B); ("esc", 0x1B); ("delete", 0x2E);
      ("tab", 0x09);
      ("left", 0x25); ("right", 0x27); ("up", 0x26); ("down", 0x28);
      ("f1", 0x70); ("f2", 0x71); ("f3", 0x72); ("f4", 0x73); ("f5", 0x74);
      ("f6", 0x75); ("f7", 0x76); ("f8", 0x77); ("f9", 0x78); ("f10", 0x79);
      ("f11", 0x7A); ("f12", 0x7B); ("f13", 0x7C); ("f14", 0x7D);
      ("f15", 0x7E); ("f16", 0x7F); ("f17", 0x80); ("f18", 0x81);
      ("f19", 0x82); ("f20", 0x83) ].

(** The results of [getHkInfo] that [Register] accepts: a sub-word of
    ["wcsa"], a key name of the table, one of the three signals. *)
Definition validTriples : list (string * string * string) :=
  w ← [false; true]; c ← [false; true]; s ← [false; true]; a ← [false; true];
  kn ← (map_to_list keyCodeWin).*1; sg ← ["down"; "up"; "press"];
  [(canon w c s a, kn, sg)].

(** [modifierSort+keyName+signal] *)
Definition glue (i : string * string * string) : string :=
  i.1.1 +:+ i.1.2 +:+ i.2.

(** A boolean test that no string occurs twice in a list, used to compare
    the registry keys of [validTriples] by computation. *)
Fixpoint memb (x : string) (l : list string) : bool :=
  match l with
  | [] => false
  | y :: l' => if String.eqb x y then true else memb x l'
  end.

Fixpoint nodupb (l : list string) : bool :=
  match l with
  | [] => true
  | x :: l' => if memb x l' then false else nodupb l'
  end.

(** [wmHotkey] and [wmQuit], the two message codes [handle] looks at. *)
Definition wmHotkey : Z := 0x0312.
Definition wmQuit : Z := 0x0012.

(** A Go [error] value; [None] in an [option error] is [nil].
    [errorString] is what [errors.New] builds, [winError] stands for
    whatever package [win] hands back from the system call. *)
Inductive error :=
| errorString (text : string)
| winError (code : Z).

Definition errAlreadyRegistered : error :=
  errorString "hotkey already registered".
Definition errNotRegistered : error :=
  errorString "hotkey is not registered".
Definition errKey : error := errorString "key error".

(** The names the specification gives to the two handle-level errors. *)
Abbreviation DuplicateRegistration := errAlreadyRegistered.
Abbreviation NotRegistered := errNotRegistered.

(** A callback of type [func()] is opaque: it is identified by a number and
    calling it is recorded as an event. *)
Definition Func := nat.

Inductive Event :=
| Invoke (f : Func)
| Println (line : string).

(** The two function literals sent over [hk.funcs]. *)
Inductive Closure :=
| registerClosure (id mod_ vk : Z)   (* win.go, lines 57-60 *)
| unregisterClosure (id : Z).        (* win.go, lines 81-85 *)

(** [canceled] is [true] once the channel [hk.canceled] is closed.  The
    channel [hk.funcs] is unbuffered, so it holds nothing between two calls;
    the closure being handed over is an argument of the worker's step.  The
    mutex [mu] is taken and released inside [register] and [unregister],
    which are modelled as single steps, and is left out. *)
Record platformHotkey := mkPlatformHotkey {
  hotkeyId : Z;
  registered : bool;
  canceled : bool
}.

Record Hotkey := mkHotkey {
  platform : platformHotkey;
  Signal : string;
  Callbacks : list Func;
  mods : list Modifier;
  key : Key
}.

Definition set_platform (p : platformHotkey) (hk : Hotkey) : Hotkey :=
  mkHotkey p (Signal hk) (Callbacks hk) (mods hk) (key hk).

Definition set_canceled (b : bool) (hk : Hotkey) : Hotkey :=
  set_platform
    (mkPlatformHotkey (hotkeyId (platform hk)) (registered (platform hk)) b) hk.

Definition set_registered (b : bool) (hk : Hotkey) : Hotkey :=
  set_platform
    (mkPlatformHotkey (hotkeyId (platform hk)) b (canceled (platform hk))) hk.

(** The goroutines started inside [handle] for a key press, and where
    each stands: the poller of lines 149-165 in its loop, and then past the
    write of line 153 or past the call of lines 155-159; the poller of
    lines 170-183 in its loop, and then past the call of lines 174-178.
    The pollers are not synchronised with the worker: it can run between
    any two of their statements. *)
Inductive Poller :=
| pollDown
| pollUp
| pollDownReleased
| pollDownCalled
| pollUpCalled.

(** One goroutine running [handle], with its local variables, and the
    pollers it has started that have not finished yet.  The pollers share
    [keyDown], [keyUp] and [keyPress] with it.  [running] tells that the
    goroutine is in its loop and comes round to the [select] of line 116:
    it has not returned, and it is not held for good inside a callback. *)
Record Worker := mkWorker {
  running : bool;
  keyDown : bool;
  keyUp : bool;
  keyPress : bool;
  pollers : list Poller
}.

Definition newWorker : Worker := mkWorker true false false false [].

Definition stop (wk : Worker) : Worker :=
  mkWorker false (keyDown wk) (keyUp wk) (keyPress wk) (pollers wk).

(** The states of the edge detector as the specification names them, read
    off the variables of [handle]: for the kinds [down] and [press] the
    detector is [DownActive] while [keyDown] is set, for the kind [up] it is
    [UpWaiting] while [keyUp] is set. *)
Inductive EdgeState := Idle | DownActive | UpWaiting.

Definition edgeState (hk : Hotkey) (wk : Worker) : EdgeState :=
  if String.eqb (Signal hk) "down" || String.eqb (Signal hk) "press" then
    if keyDown wk then DownActive else Idle
  else if String.eqb (Signal hk) "up" then
    if keyUp wk then UpWaiting else Idle
  else Idle.

(** The first loop of [(hk *Hotkey) String], hotkey.go lines 221-231. *)
Definition String_mod (s : list string) (mod_ : Modifier) : list string :=
  if negb (Z.land mod_ ModWin =? 0) then <[0%nat := "win"]> s
  else if negb (Z.land mod_ ModCtrl =? 0) then <[1%nat := "ctrl"]> s
  else if negb (Z.land mod_ ModShift =? 0) then <[2%nat := "shift"]> s
  else if negb (Z.land mod_ ModAlt =? 0) then <[3%nat := "alt"]> s
  else s.

(** [(hk *Hotkey) String].  The second loop ranges over the map
    [keyCodeWin] and stops at the first entry with the key of the hotkey;
    [order] is the order in which this run of the loop meets the entries. *)
Definition String_ (order : list (string * Key)) (hk : Hotkey) : string :=
  let s := fold_left String_mod (mods hk) (replicate 6 "") in
  let s :=
    match List.find (fun kv => kv.2 =? key hk) order with
    | Some kv => <[4%nat := kv.1]> s
    | None => s
    end in
  Join (<[5%nat := Signal hk]> s) " ".

(** Addresses of [Hotkey] values. *)
Definition addr := positive.

(** The goroutine that makes a call of the package.  A callback of the
    kinds [down] and [press] (lines 136 and 143) runs on the goroutine of
    [handle] of its hotkey: a call made from there is [onWorker a], with
    [a] the handle.  Every other goroutine is [elsewhere]: those of the
    application, and the pollers, which run the callbacks of lines 156 and
    175. *)
Inductive Caller :=
| elsewhere
| onWorker (a : addr).

(** The caller is the goroutine that serves the handle at [a]. *)
Definition own (c : Caller) (a : addr) : bool :=
  match c with
  | elsewhere => false
  | onWorker b => Pos.eqb b a
  end.

(** ** The engine: worker loop, edge detector, handle and registry *)

Section Engine.

(** Package [win] is a thin layer over [user32.dll]; the state of the
    operating system and the two calls that change it are parameters.
    [hkString] is the method [String] of [Hotkey], whose result depends
    on the iteration order of a Go map. *)
Context {OS : Type}.
Variable RegisterHotKey : Z -> Z -> Z -> Z -> OS -> bool * option error * OS.
Variable UnregisterHotKey : Z -> Z -> OS -> bool * option error * OS.
Variable hkString : Hotkey -> string.

(** The package variables [splitStr], [registeredHotkey] and [hotkeyId],
    the allocated [Hotkey] values, the goroutines running [handle], the
    operating system, and what the callbacks and [fmt.Println] have done
    so far (oldest first). *)
Record World := mkWorld {
  splitStr : string;
  registeredHotkey : gmap string addr;
  heap : gmap addr Hotkey;
  workers : gmap addr Worker;
  hotkeyIdVar : Z;
  os : OS;
  trace : list Event
}.

Definition set_registeredHotkey (r : gmap string addr) (w : World) : World :=
  mkWorld (splitStr w) r (heap w) (workers w) (hotkeyIdVar w) (os w) (trace w).
Definition set_heap (h : gmap addr Hotkey) (w : World) : World :=
  mkWorld (splitStr w) (registeredHotkey w) h (workers w) (hotkeyIdVar w)
          (os w) (trace w).
Definition set_workers (ws : gmap addr Worker) (w : World) : World :=
  mkWorld (splitStr w) (registeredHotkey w) (heap w) ws (hotkeyIdVar w)
          (os w) (trace w).
Definition set_hotkeyIdVar (n : Z) (w : World) : World :=
  mkWorld (splitStr w) (registeredHotkey w) (heap w) (workers w) n
          (os w) (trace w).
Definition set_os (o : OS) (w : World) : World :=
  mkWorld (splitStr w) (registeredHotkey w) (heap w) (workers w)
          (hotkeyIdVar w) o (trace w).
Definition emit (evs : list Event) (w : World) : World :=
  mkWorld (splitStr w) (registeredHotkey w) (heap w) (workers w)
          (hotkeyIdVar w) (os w) (trace w ++ evs).

(** [SetSplitStr] *)
Definition SetSplitStr (str : string) (w : World) : World :=
  mkWorld str (registeredHotkey w) (heap w) (workers w) (hotkeyIdVar w)
          (os w) (trace w).

(** *** The edge detector *)

(** [if len(hk.Callbacks) > i { hk.Callbacks[i]() } else
    { fmt.Println(hk.String() + suffix) }] *)
Definition callOrPrint (hk : Hotkey) (i : nat) (suffix : string) : Event :=
  match Callbacks hk !! i with
  | Some f => Invoke f
  | None => Println (hkString hk +:+ suffix)
  end.

(** [case wmHotkey], lines 130-185. *)
Definition onHotkey (hk : Hotkey) (wk : Worker) : Worker * list Event :=
  if String.eqb (Signal hk) "down" || String.eqb (Signal hk) "press" then
    if negb (keyDown wk) then
      if String.eqb (Signal hk) "press" then
        (mkWorker (running wk) true (keyUp wk) true
                  (pollers wk ++ [pollDown]),
         [callOrPrint hk 0 " start"])
      else
        (mkWorker (running wk) true (keyUp wk) (keyPress wk)
                  (pollers wk ++ [pollDown]),
         [callOrPrint hk 0 ""])
    else (wk, [])
  else if String.eqb (Signal hk) "up" then
    if negb (keyUp wk) then
      (mkWorker (running wk) (keyDown wk) true (keyPress wk)
                (pollers wk ++ [pollUp]),
       [])
    else (wk, [])
  else (wk, []).

(** One move of a poller, statement by statement; [state] is what
    [win.GetAsyncKeyState] returns to a poller in its loop.  The third
    component is where the poller stands afterwards, [None] when it has
    ended. *)
Definition pollMove (hk : Hotkey) (p : Poller) (state : Z) (wk : Worker)
  : Worker * list Event * option Poller :=
  match p with
  | pollDown =>                                      (* lines 152-153 *)
      if negb (state =? 0) then (wk, [], Some pollDown)
      else
        (mkWorker (running wk) false (keyUp wk) (keyPress wk) (pollers wk),
         [], Some pollDownReleased)
  | pollDownReleased =>                              (* lines 154-159, 162 *)
      if keyPress wk
      then (wk, [callOrPrint hk 1 " end"], Some pollDownCalled)
      else (wk, [], None)
  | pollDownCalled =>                                (* lines 160, 162 *)
      (mkWorker (running wk) (keyDown wk) (keyUp wk) false (pollers wk),
       [], None)
  | pollUp =>                                        (* lines 173-178 *)
      if negb (state =? 0) then (wk, [], Some pollUp)
      else (wk, [callOrPrint hk 0 ""], Some pollUpCalled)
  | pollUpCalled =>                                  (* lines 179-180 *)
      (mkWorker (running wk) (keyDown wk) false (keyPress wk) (pollers wk),
       [], None)
  end.

(** One tick of a poller in its loop that the worker does not interrupt:
    on the tick that finds the key released the poller runs to its end,
    which is the moves of [pollMove] in a row.  [state] is what
    [win.GetAsyncKeyState] returns; the third component tells whether the
    poller has ended.  A tick is nothing to a poller that has left its
    loop. *)
Definition pollIter (hk : Hotkey) (p : Poller) (state : Z) (wk : Worker)
  : Worker * list Event * bool :=
  if negb (state =? 0) then (wk, [], false)
  else
    match p with
    | pollDown =>                                    (* lines 152-163 *)
        if keyPress wk then
          (mkWorker (running wk) false (keyUp wk) false (pollers wk),
           [callOrPrint hk 1 " end"], true)
        else
          (mkWorker (running wk) false (keyUp wk) (keyPress wk) (pollers wk),
           [], true)
    | pollUp =>                                      (* lines 173-181 *)
        (mkWorker (running wk) (keyDown wk) false (keyPress wk) (pollers wk),
         [callOrPrint hk 0 ""], true)
    | pollDownReleased | pollDownCalled | pollUpCalled => (wk, [], false)
    end.

Definition dropPoller (j : nat) (wk : Worker) : Worker :=
  mkWorker (running wk) (keyDown wk) (keyUp wk) (keyPress wk)
           (delete j (pollers wk)).

(** The [j]-th poller goes on from [next], or has ended. *)
Definition movePoller (j : nat) (next : option Poller) (wk : Worker)
  : Worker :=
  match next with
  | Some q =>
      mkWorker (running wk) (keyDown wk) (keyUp wk) (keyPress wk)
               (<[j := q]> (pollers wk))
  | None => dropPoller j wk
  end.

(** A ticker tick of the [j]-th poller started by the worker of [a]. *)
Definition pollStep (a : addr) (j : nat) (state : Z) (w : World) : World :=
  match heap w !! a, workers w !! a with
  | Some hk, Some wk =>
      match pollers wk !! j with
      | Some p =>
          let '(wk', evs, finished) := pollIter hk p state wk in
          let wk'' := if finished then dropPoller j wk' else wk' in
          emit evs (set_workers (<[a := wk'']> (workers w)) w)
      | None => w
      end
  | _, _ => w
  end.

(** One move of the [j]-th poller started by the worker of [a]. *)
Definition moveStep (a : addr) (j : nat) (state : Z) (w : World) : World :=
  match heap w !! a, workers w !! a with
  | Some hk, Some wk =>
      match pollers wk !! j with
      | Some p =>
          let '(wk', evs, next) := pollMove hk p state wk in
          emit evs (set_workers (<[a := movePoller j next wk']> (workers w)) w)
      | None => w
      end
  | _, _ => w
  end.

(** The number of moves a poller makes on a tick that the worker does not
    interrupt. *)
Definition movesOf (p : Poller) (state : Z) (wk : Worker) : nat :=
  match p with
  | pollDown =>
      if negb (state =? 0) then 1 else if keyPress wk then 3 else 2
  | pollUp => if negb (state =? 0) then 1 else 2
  | pollDownReleased | pollDownCalled | pollUpCalled => 0
  end.

(** *** The worker loop *)

(** What the system calls of one iteration report: [win.PeekMessage],
    [win.GetMessage] and the message it stored, and the way the runtime
    settles a [select] with two ready cases. *)
Record Tick := mkTick {
  peek : bool;
  got : bool;
  message : Z;
  choice : bool
}.

Inductive Selected :=
| selFunc (f : Closure)
| selCanceled
| selDefault.

(** The [select] of lines 116-122: [sender] is the closure some goroutine
    is blocked sending on [hk.funcs], if any. *)
Definition select (sender : option Closure) (closed : bool) (pick : bool)
  : Selected :=
  match sender, closed with
  | Some f, false => selFunc f
  | Some f, true => if pick then selFunc f else selCanceled
  | None, true => selCanceled
  | None, false => selDefault
  end.

(** Running a closure on the worker's thread.  The register closure
    stores its two results in variables of [register]; the unregister
    closure drops the results of the system call and closes
    [hk.canceled]. *)
Definition runClosure (a : addr) (f : Closure) (w : World)
  : World * option (bool * option error) :=
  match f with
  | registerClosure id mod_ vk =>
      let '(ok, err, o) := RegisterHotKey 0 id mod_ vk (os w) in
      (set_os o w, Some (ok, err))
  | unregisterClosure id =>
      let '(_, _, o) := UnregisterHotKey 0 id (os w) in
      (set_heap (alter (set_canceled true) a (heap w)) (set_os o w), None)
  end.

Inductive Exit := exitCanceled | exitGetMessage | exitQuit.

Inductive Outcome :=
| idled
| served (f : Closure) (answer : option (bool * option error))
| dispatched (m : Z)
| returned (why : Exit).

Definition stopWorker (a : addr) (w : World) : World :=
  set_workers (alter stop a (workers w)) w.

(** One iteration of [for range tk.C] in [handle], lines 112-189, for the
    worker of the handle at [a].  [None]: no such goroutine is running. *)
Definition handleIter (a : addr) (sender : option Closure) (t : Tick)
    (w : World) : option (World * Outcome) :=
  match heap w !! a, workers w !! a with
  | Some hk, Some wk =>
      if negb (running wk) then None
      else if negb (peek t) then
        match select sender (canceled (platform hk)) (choice t) with
        | selFunc f =>
            let '(w', answer) := runClosure a f w in
            Some (w', served f answer)
        | selCanceled => Some (stopWorker a w, returned exitCanceled)
        | selDefault => Some (w, idled)
        end
      else if negb (got t) then
        Some (stopWorker a w, returned exitGetMessage)
      else if message t =? wmHotkey then
        let '(wk', evs) := onHotkey hk wk in
        Some (emit evs (set_workers (<[a := wk']> (workers w)) w),
              dispatched (message t))
      else if message t =? wmQuit then
        Some (stopWorker a w, returned exitQuit)
      else Some (w, dispatched (message t))
  | _, _ => None
  end.

(** *** The handle *)

(** A tick on which no message is pending. *)
Definition idleTick : Tick := mkTick false false 0 true.

(** [hk.funcs <- f]: the send completes when the worker of [a] reaches
    its [select] on an idle tick and takes the closure.  While
    [hk.canceled] is open this is the only ready case, and it is open
    whenever a closure is sent: [register] has just made the channel, and
    [unregister] sends on a registered handle only ([channels_ok]).  When
    no worker of the handle is running, the send blocks for good.  So it
    does when the sender is that worker ([self]): the channel is
    unbuffered, and the one goroutine that receives from it is the one
    blocked in the send. *)
Definition send (self : bool) (a : addr) (f : Closure) (w : World)
  : option (World * option (bool * option error)) :=
  if self then None
  else
    match handleIter a (Some f) idleTick w with
    | Some (w', served _ answer) => Some (w', answer)
    | _ => None
    end.

(** [mod = mod | uint8(m)] over [hk.mods], lines 42-45. *)
Definition modBits (ms : list Modifier) : Z :=
  fold_left (fun acc m => Z.lor acc (m mod 2 ^ 8)) ms 0.

(** [(hk *Hotkey) register], lines 35-70.  [None] stands for a call that
    never returns.  [Register] hands a handle to [register] once, right
    after [New], so a handle has one worker at most and [go hk.handle()]
    fills its slot.  The closure goes to the goroutine started on line 50,
    which is not the sender, whoever calls.  The conversions to [uintptr]
    of the identifier, the modifiers and the key lose nothing on a 64-bit
    system. *)
Definition register (a : addr) (w : World) : option (option error * World) :=
  match heap w !! a with
  | None => None
  | Some hk =>
      if registered (platform hk)
      then Some (Some errAlreadyRegistered, w)
      else
        let mod_ := modBits (mods hk) in
        let id := (hotkeyIdVar w + 1) mod 2 ^ 64 in
        let hk1 := set_platform (mkPlatformHotkey id false false) hk in
        let w1 :=
          set_workers (<[a := newWorker]> (workers w))
            (set_heap (<[a := hk1]> (heap w)) (set_hotkeyIdVar id w)) in
        match send false a (registerClosure id mod_ (key hk)) w1 with
        | Some (w2, Some (ok, err)) =>
            if negb ok
            then Some (err,
                       set_heap (alter (set_canceled true) a (heap w2)) w2)
            else Some (None,
                       set_heap (alter (set_registered true) a (heap w2)) w2)
        | _ => None
        end
  end.

(** [(hk *Hotkey) unregister], lines 73-91, called by [c].  The closure
    goes to the worker of the handle: when [c] is that worker, inside a
    callback of lines 136 or 143, the send of line 81 never completes. *)
Definition unregister (c : Caller) (a : addr) (w : World)
  : option (option error * World) :=
  match heap w !! a with
  | None => None
  | Some hk =>
      if negb (registered (platform hk))
      then Some (Some errNotRegistered, w)
      else
        match send (own c a) a (unregisterClosure (hotkeyId (platform hk))) w
        with
        | Some (w1, _) =>
            (* [<-done] has been answered; [<-hk.canceled] *)
            match heap w1 !! a with
            | Some hk1 =>
                if canceled (platform hk1)
                then Some (None,
                           set_heap (alter (set_registered false) a (heap w1))
                                    w1)
                else None
            | None => None
            end
        | None => None
        end
  end.

(** The world [register] leaves behind on a handle that is not registered
    yet, in terms of what the operating system answers. *)
Definition registered_world (a : addr) (hk : Hotkey) (w : World) : World :=
  let id := (hotkeyIdVar w + 1) mod 2 ^ 64 in
  let '(ok, _, o) :=
    RegisterHotKey 0 id (modBits (mods hk)) (key hk) (os w) in
  mkWorld (splitStr w) (registeredHotkey w)
          (<[a := set_platform (mkPlatformHotkey id ok (negb ok)) hk]>
             (heap w))
          (<[a := newWorker]> (workers w)) id o (trace w).

(** The world [unregister] leaves behind on a registered handle whose
    worker is running. *)
Definition unregistered_world (a : addr) (hk : Hotkey) (w : World) : World :=
  let '(_, _, o) := UnregisterHotKey 0 (hotkeyId (platform hk)) (os w) in
  mkWorld (splitStr w) (registeredHotkey w)
          (<[a := set_platform
                    (mkPlatformHotkey (hotkeyId (platform hk)) false true)
                    hk]> (heap w))
          (workers w) (hotkeyIdVar w) o (trace w).

(** A registered handle has its channel [hk.canceled] open: the invariant
    behind [send], kept by every operation below. *)
Definition channels_ok (w : World) : Prop :=
  forall a hk,
    heap w !! a = Some hk ->
    registered (platform hk) = true -> canceled (platform hk) = false.

(** A caller working on one handle from a goroutine of its own: a
    sequence of calls of [register] and [unregister]; a call that blocks
    ends the sequence. *)
Inductive HandleOp := opRegister | opUnregister.

Fixpoint handleOps (a : addr) (ops : list HandleOp) (w : World) : World :=
  match ops with
  | [] => w
  | op :: ops' =>
      match (match op with
             | opRegister => register a w
             | opUnregister => unregister elsewhere a w
             end) with
      | Some (_, w') => handleOps a ops' w'
      | None => w
      end
  end.

(** *** The registry *)

(** [New]: a fresh [Hotkey] with the zero value in every other field.
    The finalizer set here calls [unregister]; a handle is reachable from
    its worker for as long as that goroutine runs, and [unregister] on a
    handle that is not registered changes nothing, so finalizers are left
    out. *)
Definition New (ms : list Modifier) (k : Key) (w : World) : addr * World :=
  let a := fresh (dom (heap w)) in
  (a, set_heap
        (<[a := mkHotkey (mkPlatformHotkey 0 false false) "" [] ms k]>
           (heap w)) w).

(** [getModifier] *)
Definition getModifier (modifier : string) : list Modifier :=
  if (0 <? String.length modifier)%nat then
    fold_left
      (fun (mod_ : list Modifier) v =>
         if String.eqb v "w" then (mod_ ++ [ModWin])%list
         else if String.eqb v "c" then (mod_ ++ [ModCtrl])%list
         else if String.eqb v "s" then (mod_ ++ [ModShift])%list
         else if String.eqb v "a" then (mod_ ++ [ModAlt])%list
         else mod_)
      (Split modifier "") []
  else [].

(** The key under which [Register] and [Unregister] file a hotkey. *)
Definition identity (w : World) (modifier key : string) : string :=
  let '(modifierSort, keyName, signal) :=
    getHkInfo (splitStr w) modifier key in
  modifierSort +:+ keyName +:+ signal.

(** [Register] *)
Definition Register (modifier key : string) (callbacks : list Func)
    (w : World) : option (option error * World) :=
  let '(modifierSort, keyName, signal) :=
    getHkInfo (splitStr w) modifier key in
  match keyCodeWin !! keyName with
  | None => Some (Some errKey, w)
  | Some keyCode =>
      let mod_ := getModifier modifierSort in
      let '(a, w1) := New mod_ keyCode w in
      let hk :=
        mkHotkey (mkPlatformHotkey 0 false false) signal callbacks
                 mod_ keyCode in
      let w2 := set_heap (<[a := hk]> (heap w1)) w1 in
      let w3 :=
        set_registeredHotkey
          (<[modifierSort +:+ keyName +:+ signal := a]>
             (registeredHotkey w2)) w2 in
      register a w3
  end.

(** [Unregister], called by [c]. *)
Definition Unregister (c : Caller) (modifier key : string) (w : World)
  : option (option error * World) :=
  let '(modifierSort, keyName, signal) :=
    getHkInfo (splitStr w) modifier key in
  let k := modifierSort +:+ keyName +:+ signal in
  match registeredHotkey w !! k with
  | None => Some (None, w)
  | Some a =>
      match unregister c a w with
      | Some (Some err, w') => Some (Some err, w')
      | Some (None, w') =>
          Some (None,
                set_registeredHotkey (delete k (registeredHotkey w')) w')
      | None => None
      end
  end.

(** *** Runs *)

(** What happens between two calls of the interface: the tickers of the
    workers and of the pollers fire.  A poller takes a tick as a whole
    ([pollerTick]) or one move at a time ([pollerMove]), with steps of the
    worker and of other pollers in between. *)
Inductive Action :=
| workerTick (a : addr) (t : Tick)
| pollerTick (a : addr) (j : nat) (state : Z)
| pollerMove (a : addr) (j : nat) (state : Z).

Definition step (w : World) (act : Action) : World :=
  match act with
  | workerTick a t =>
      match handleIter a None t w with
      | Some (w', _) => w'
      | None => w
      end
  | pollerTick a j state => pollStep a j state w
  | pollerMove a j state => moveStep a j state w
  end.

Definition run (acts : list Action) (w : World) : World :=
  fold_left step acts w.

(** The message pump delivers a hotkey interrupt. *)
Definition interrupt (a : addr) : Action :=
  workerTick a (mkTick true true wmHotkey true).

(** A program using the package: calls of its interface made by the
    goroutines of the application, with the ticks of the workers and
    pollers in between.  Callbacks are opaque, so a program makes no call
    from inside one.  A call of [Unregister] that blocks leaves the world
    as it is. *)
Inductive Call :=
| callRegister (modifier key : string) (callbacks : list Func)
| callUnregister (modifier key : string)
| callSetSplitStr (str : string)
| happen (act : Action).

Definition perform (w : World) (c : Call) : World :=
  match c with
  | callRegister modifier key callbacks =>
      match Register modifier key callbacks w with
      | Some (_, w') => w'
      | None => w
      end
  | callUnregister modifier key =>
      match Unregister elsewhere modifier key w with
      | Some (_, w') => w'
      | None => w
      end
  | callSetSplitStr str => SetSplitStr str w
  | happen act => step w act
  end.

Definition program (calls : list Call) (w : World) : World :=
  fold_left perform calls w.

(** The hotkey is pressed, held for some ticks of the poller, and
    released: the message, the ticks on which the key is found down, the
    tick on which it is found up. *)
Definition cycle (a : addr) (held : list Z) : list Action :=
  interrupt a :: map (pollerTick a 0) held ++ [pollerTick a 0 0].

(** What one such cycle makes a worker at rest do, by signal kind. *)
Definition cycleEvents (hk : Hotkey) : list Event :=
  if String.eqb (Signal hk) "press"
  then [callOrPrint hk 0 " start"; callOrPrint hk 1 " end"]
  else if String.eqb (Signal hk) "down" || String.eqb (Signal hk) "up"
  then [callOrPrint hk 0 ""]
  else [].

End Engine.

(** *** Invariants of the worlds a program goes through *)

Section Invariants.

Context {OS : Type}.

(** Handles and workers are allocated together, and every entry of the
    registry points at one. *)
Definition registry_wf (w : @World OS) : Prop :=
  dom (workers w) = dom (heap w) /\
  forall k a, registeredHotkey w !! k = Some a -> a ∈ dom (heap w).

(** Every handle carries an identifier drawn from the counter, and no two
    handles carry the same. *)
Definition ids_ok (w : @World OS) : Prop :=
  0 <= hotkeyIdVar w /\
  (forall a hk,
     heap w !! a = Some hk -> 1 <= hotkeyId (platform hk) <= hotkeyIdVar w) /\
  (forall a a' hk hk',
     heap w !! a = Some hk -> heap w !! a' = Some hk' ->
     hotkeyId (platform hk) = hotkeyId (platform hk') -> a = a').

(** The caller is a goroutine of the world: when it is a worker, its
    handle exists. *)
Definition known (c : Caller) (w : @World OS) : Prop :=
  match c with
  | elsewhere => True
  | onWorker b => b ∈ dom (heap w)
  end.

Definition samePoller (p q : Poller) : bool :=
  match p, q with
  | pollDown, pollDown | pollUp, pollUp
  | pollDownReleased, pollDownReleased | pollDownCalled, pollDownCalled
  | pollUpCalled, pollUpCalled => true
  | _, _ => false
  end.

Definition countPoller (p : Poller) (ps : list Poller) : nat :=
  List.length (List.filter (samePoller p) ps).

(** A worker between two iterations of its loop.  A poller of lines
    149-165 is in its loop exactly while [keyDown] is set, and never two
    are; a poller of lines 170-183 is in flight exactly while [keyUp] is
    set, and never two are.  Pollers of lines 149-165 that have met the
    release and have not ended yet can be any number, beside the one in
    its loop; as long as [keyPress] is set, [keyDown] is set or there is
    one of them. *)
Definition worker_ok (wk : Worker) : Prop :=
  countPoller pollDown (pollers wk) = (if keyDown wk then 1 else 0)%nat /\
  (countPoller pollUp (pollers wk)
   + countPoller pollUpCalled (pollers wk))%nat
  = (if keyUp wk then 1 else 0)%nat /\
  (keyPress wk = true ->
   keyDown wk = true \/
   (0 < countPoller pollDownReleased (pollers wk)
        + countPoller pollDownCalled (pollers wk))%nat).

Definition workers_ok (w : @World OS) : Prop :=
  forall a wk, workers w !! a = Some wk -> worker_ok wk.

End Invariants.

End hotkey.

Import hotkey.

Local Open Scope Z_scope.

(** * The earlier [getHkInfo]

    The package also holds an earlier form of [hotkey.go], in which the
    second argument of [Register] carries the key name and the signal as
    words separated by white space.  [strings.Fields] and [strings.ToLower]
    are parameters: nothing below depends on what they return. *)

Module legacy.

Section GetHkInfo.

Variable Fields : string -> list string.
Variable ToLower : string -> string.

(** The body of the second loop, lines 123-141; the third component tells
    that the loop has been left by [break]. *)
Definition keyStep (st : string * string * bool) (v0 : string)
  : string * string * bool :=
  let '(signal, keyName, broke) := st in
  if broke then st
  else
    let v := ToLower v0 in
    let '(signal', keyName') :=
      if String.eqb v "down" then
        (if String.eqb signal "" then v else signal, keyName)
      else if String.eqb v "up" then
        (if String.eqb signal "" then v else signal, keyName)
      else (signal, if String.eqb keyName "" then v else keyName) in
    (signal', keyName',
     negb (String.eqb signal' "") && negb (String.eqb keyName' "")).

(** [getHkInfo], lines 105-147. *)
Definition getHkInfo (modifier key : string) : string * string * string :=
  let modifierSort :=
    if (0 <? String.length modifier)%nat
    then Join (fold_left shortStep (Split modifier "") k0_init) ""
    else "" in
  let '(signal, keyName, _) :=
    fold_left keyStep (Fields key) ("", "", false) in
  (modifierSort, keyName, if String.eqb signal "" then "down" else signal).

End GetHkInfo.

End legacy.

(** ** A small operating system for the examples

    [RegisterHotKey] refuses a combination that is already registered
    (error 1409) and [UnregisterHotKey] refuses an identifier that is not
    registered (error 1419); the state is the list of live registrations
    [(id, modifiers, key)]. *)

Module SimOS.

Definition t := list (Z * Z * Z).

Definition taken (mod_ vk : Z) (o : t) : bool :=
  existsb (fun r => (r.1.2 =? mod_) && (r.2 =? vk)) o.

Definition RegisterHotKey (hwnd id mod_ vk : Z) (o : t)
  : bool * option error * t :=
  if taken mod_ vk o then (false, Some (winError 1409), o)
  else (true, None, (id, mod_, vk) :: o).

Definition UnregisterHotKey (hwnd id : Z) (o : t)
  : bool * option error * t :=
  if existsb (fun r => r.1.1 =? id) o
  then (true, None, filter (fun r => negb (r.1.1 =? id)) o)
  else (false, Some (winError 1419), o).

Definition World : Type := @hotkey.World t.

(** [hk.String()] is of no interest in the examples. *)
Definition hkString (hk : Hotkey) : string := "hotkey".

Definition Register := Register RegisterHotKey UnregisterHotKey hkString.
Definition Unregister := Unregister RegisterHotKey UnregisterHotKey hkString.
Definition register := register RegisterHotKey UnregisterHotKey hkString.
Definition unregister := unregister RegisterHotKey UnregisterHotKey hkString.
Definition run := run RegisterHotKey UnregisterHotKey hkString.

(** The program has just started; [owned] are the combinations other
    programs hold. *)
Definition start (owned : t) : World :=
  mkWorld "_" ∅ ∅ ∅ 0 owned [].

End SimOS.

(** ** An operating system that refuses nothing

    It keeps the identifiers of the live registrations, one entry per
    accepted call of [RegisterHotKey]. *)

Module LaxOS.

Definition t := list Z.

Definition RegisterHotKey (hwnd id mod_ vk : Z) (o : t)
  : bool * option error * t :=
  (true, None, id :: o).

Definition UnregisterHotKey (hwnd id : Z) (o : t)
  : bool * option error * t :=
  (bool_decide (id ∈ o), None, List.remove Z.eq_dec id o).

Definition handleOps :=
  handleOps RegisterHotKey UnregisterHotKey SimOS.hkString.

(** The live registrations are the identifier of the handle at [a] while
    it is registered, and none otherwise. *)
Definition one_live (a : addr) (w : @World t) : Prop :=
  exists hk,
    heap w !! a = Some hk /\
    os w = if registered (platform hk)
           then [hotkeyId (platform hk)] else [].

End LaxOS.

(** ** Worlds for the examples *)

Module Scenario.

Import SimOS.

(** [Register("cs_z", "up", f7)] in a program that has just started. *)
Definition hk_up : Hotkey :=
  mkHotkey (mkPlatformHotkey 1 true false) "up" [7%nat]
           [ModCtrl; ModShift] 0x5A.

Definition w_up : World :=
  mkWorld "_" {["cszup" := 1%positive]} {[1%positive := hk_up]}
          {[1%positive := newWorker]} 1 [(1, 6, 0x5A)] [].

(** ... after the hotkey message has been dispatched: the poller of
    kind [up] is in flight. *)
Definition wk_waiting : Worker := mkWorker true false true false [pollUp].

Definition w_waiting : World :=
  mkWorld "_" {["cszup" := 1%positive]} {[1%positive := hk_up]}
          {[1%positive := wk_waiting]} 1 [(1, 6, 0x5A)] [].

(** ... after [Unregister("cs_z", "up")] has returned. *)
Definition hk_gone : Hotkey :=
  mkHotkey (mkPlatformHotkey 1 false true) "up" [7%nat]
           [ModCtrl; ModShift] 0x5A.

Definition w_gone : World :=
  mkWorld "_" ∅ {[1%positive := hk_gone]} {[1%positive := wk_waiting]}
          1 [] [].

(** [Register("cs_d", "press", f3, f4)] and [Register("cs_d", "press", f3)]
    in a program that has just started. *)
Definition hk_press (callbacks : list Func) : Hotkey :=
  mkHotkey (mkPlatformHotkey 1 true false) "press" callbacks
           [ModCtrl; ModShift] 0x44.

Definition w_press (callbacks : list Func) : World :=
  mkWorld "_" {["csdpress" := 1%positive]}
          {[1%positive := hk_press callbacks]}
          {[1%positive := newWorker]} 1 [(1, 6, 0x44)] [].



(** [Register("ctrl_z", "")] while another program holds Ctrl+Z. *)
Definition w_foreign : World := start [(99, 2, 0x5A)].

Definition hk_refused : Hotkey :=
  mkHotkey (mkPlatformHotkey 1 false true) "down" [] [ModCtrl] 0x5A.

Definition w_refused : World :=
  mkWorld "_" {["czdown" := 1%positive]} {[1%positive := hk_refused]}
          {[1%positive := newWorker]} 1 [(99, 2, 0x5A)] [].

End Scenario.

(** ** A program for the examples

    Two hotkeys are registered, the first is pressed and released, both are
    unregistered and one is registered again. *)

Module Session.

Definition program :=
  program SimOS.RegisterHotKey SimOS.UnregisterHotKey SimOS.hkString.

Definition calls : list Call :=
  [ callRegister "cs_z" "up" [7%nat];
    callRegister "ctrl_alt_delete" "press" [3%nat; 4%nat];
    happen (interrupt 1%positive);
    happen (pollerTick 1%positive 0 1);
    happen (pollerTick 1%positive 0 0);
    callUnregister "sc_z" "up";
    callUnregister "ca_delete" "press";
    callRegister "cs_z" "" [] ].

(** A hotkey of the kind [press] is pressed, released, and pressed again
    while its poller is between the call of the second callback and the
    write of line 160. *)
Definition overlap : list Call :=
  [ callRegister "cs_d" "press" [3%nat; 4%nat];
    happen (interrupt 1%positive);
    happen (pollerMove 1%positive 0 0);
    happen (pollerMove 1%positive 0 0);
    happen (interrupt 1%positive) ].

(** The order in which [map_to_list] lists [keyCodeWin], one of the orders
    a Go loop over the map may take. *)
Definition order : list (string * Key) := map_to_list keyCodeWin.

End Session.

(** * Properties *)

(** ** The model of [strings.Split] on examples *)

Example Split_default : Split "ctrl_shift_z" "_" = ["ctrl"; "shift"; "z"].
Proof. reflexivity. Qed.

Example Split_empty_input : Split "" "_" = [""].
Proof. reflexivity. Qed.

Example Split_long_sep : Split "a<>b<><>c" "<>" = ["a"; "b"; ""; "c"].
Proof. reflexivity. Qed.

Example Split_chars : Split "csa" "" = ["c"; "s"; "a"].
Proof. reflexivity. Qed.

Example Split_nothing : Split "" "" = [].
Proof. reflexivity. Qed.

Example getHkInfo_short : getHkInfo "_" "sac_z" "up" = ("csa", "z", "up").
Proof. reflexivity. Qed.

Example getHkInfo_long :
  getHkInfo "_" "shift_alt_z_ctrl" "" = ("csa", "z", "down").
Proof. reflexivity. Qed.

Example getHkInfo_single : getHkInfo "_" "esc" "" = ("", "esc", "down").
Proof. reflexivity. Qed.

(** ** [explode] loses nothing

    The elements of [explode s] are the consecutive pieces of [s]: the
    fuel of [explode_fuel] is never used up before the end of the string. *)

Section ExplodeFacts.

Lemma append_empty_r s : String.append s "" = s.
Proof.
  induction s as [|c s IH]; [reflexivity|].
  change (String c (String.append s "") = String c s). now rewrite IH.
Qed.

Lemma concat_cons x xs :
  String.concat "" (x :: xs) = String.append x (String.concat "" xs).
Proof.
  destruct xs; cbn [String.concat];
    [now rewrite append_empty_r | reflexivity].
Qed.

Lemma substring_cut n : forall s,
  (n <= String.length s)%nat ->
  String.append (substring 0 n s) (substring n (String.length s - n) s) = s.
Proof.
  induction n as [|n IH]; intros s Hn.
  - rewrite Nat.sub_0_r.
    replace (substring 0 0 s) with "" by (destruct s; reflexivity).
    change (substring 0 (String.length s) s = s).
    clear. induction s as [|c s IH]; [reflexivity|].
    cbn [substring String.length]. now rewrite IH.
  - destruct s as [|c s]; cbn [String.length] in Hn; [lia|].
    cbn [substring String.length Nat.sub].
    change (String c (String.append (substring 0 n s)
                        (substring n (String.length s - n) s)) = String c s).
    f_equal. apply IH. lia.
Qed.

Lemma substring_rest_length n : forall s,
  (n <= String.length s)%nat ->
  String.length (substring n (String.length s - n) s)
  = (String.length s - n)%nat.
Proof.
  induction n as [|n IH]; intros s Hn.
  - rewrite Nat.sub_0_r. clear Hn. induction s as [|c s IH]; [reflexivity|].
    cbn [substring String.length]. now rewrite IH.
  - destruct s as [|c s]; cbn [String.length] in Hn; [lia|].
    cbn [substring String.length Nat.sub]. apply IH. lia.
Qed.

Lemma is_cont_length lo hi s :
  is_cont lo hi s = true -> (1 <= String.length s)%nat.
Proof. destruct s; simpl; [discriminate | lia]. Qed.

(** The width [DecodeRuneInString] reports is at least one byte and never
    reaches past the end of the string. *)
Lemma DecodeRuneInString_size_bounds s :
  s <> "" -> (1 <= DecodeRuneInString_size s <= String.length s)%nat.
Proof.
  destruct s as [|a s1]; [congruence|]. intros _.
  unfold DecodeRuneInString_size.
  destruct (lead_info (byte_of a)) as [[[sz lo] hi]|]; [|simpl; lia].
  destruct (is_cont lo hi s1) eqn:E1; cbn [negb]; [|simpl; lia].
  apply is_cont_length in E1.
  destruct (sz <=? 2)%nat; [simpl; lia|].
  destruct (is_cont 128 191 (tail s1)) eqn:E2; cbn [negb]; [|simpl; lia].
  apply is_cont_length in E2.
  destruct s1 as [|b s2]; [simpl in *; lia|]. cbn [tail] in *.
  destruct (sz <=? 3)%nat; [simpl; lia|].
  destruct (is_cont 128 191 (tail s2)) eqn:E3; cbn [negb]; [|simpl; lia].
  apply is_cont_length in E3.
  destruct s2 as [|c s3]; [simpl in *; lia|]. cbn [tail] in *. simpl. lia.
Qed.

Lemma explode_fuel_concat fuel : forall s,
  (String.length s <= fuel)%nat ->
  String.concat "" (explode_fuel fuel s) = s.
Proof.
  induction fuel as [|fuel IH]; intros s Hs.
  - destruct s; simpl in *; [reflexivity | lia].
  - destruct s as [|a s1]; [reflexivity|].
    cbn [explode_fuel].
    pose proof (DecodeRuneInString_size_bounds (String a s1)
                  ltac:(discriminate)) as Hb.
    set (n := DecodeRuneInString_size (String a s1)) in *.
    rewrite concat_cons, IH.
    + now apply substring_cut.
    + rewrite substring_rest_length by lia. simpl in *. lia.
Qed.

Lemma explode_concat s : Join (explode s) "" = s.
Proof. now apply explode_fuel_concat. Qed.

End ExplodeFacts.

(** ** Identity normalisation *)

Section Normalisation.

Lemma has_Permutation t l l' : Permutation l l' -> has t l = has t l'.
Proof.
  unfold has. induction 1; simpl; auto.
  - now rewrite IHPermutation.
  - destruct (String.eqb x t), (String.eqb y t); reflexivity.
  - congruence.
Qed.

Lemma shortStep_k0_of w c s a v :
  shortStep (k0_of w c s a) v =
  k0_of (w || String.eqb v "w") (c || String.eqb v "c")
        (s || String.eqb v "s") (a || String.eqb v "a").
Proof.
  unfold shortStep.
  destruct (String.eqb v "w") eqn:Ew.
  { apply String.eqb_eq in Ew; subst v; simpl.
    rewrite !orb_false_r, orb_true_r; reflexivity. }
  destruct (String.eqb v "c") eqn:Ec.
  { apply String.eqb_eq in Ec; subst v; simpl.
    rewrite !orb_false_r, orb_true_r; reflexivity. }
  destruct (String.eqb v "s") eqn:Es.
  { apply String.eqb_eq in Es; subst v; simpl.
    rewrite !orb_false_r, orb_true_r; reflexivity. }
  destruct (String.eqb v "a") eqn:Ea.
  { rewrite !orb_false_r, orb_true_r; reflexivity. }
  now rewrite !orb_false_r.
Qed.

Lemma fold_shortStep l : forall w c s a,
  fold_left shortStep l (k0_of w c s a) =
  k0_of (w || has "w" l) (c || has "c" l) (s || has "s" l) (a || has "a" l).
Proof.
  induction l as [|v l IH]; intros w c s a; simpl.
  - now rewrite !orb_false_r.
  - rewrite shortStep_k0_of, IH, <- !orb_assoc. reflexivity.
Qed.

Lemma longStep_k0_of w c s a kn v :
  (longStep (k0_of w c s a, kn) v).1 =
  k0_of (w || String.eqb v "win") (c || String.eqb v "ctrl")
        (s || String.eqb v "shift") (a || String.eqb v "alt").
Proof.
  unfold longStep.
  destruct (String.eqb v "win") eqn:Ew.
  { apply String.eqb_eq in Ew; subst v; simpl.
    rewrite !orb_false_r, orb_true_r; reflexivity. }
  destruct (String.eqb v "ctrl") eqn:Ec.
  { apply String.eqb_eq in Ec; subst v; simpl.
    rewrite !orb_false_r, orb_true_r; reflexivity. }
  destruct (String.eqb v "shift") eqn:Es.
  { apply String.eqb_eq in Es; subst v; simpl.
    rewrite !orb_false_r, orb_true_r; reflexivity. }
  destruct (String.eqb v "alt") eqn:Ea.
  { simpl. rewrite !orb_false_r, orb_true_r; reflexivity. }
  simpl. now rewrite !orb_false_r.
Qed.

Lemma fold_longStep l : forall w c s a kn,
  (fold_left longStep l (k0_of w c s a, kn)).1 =
  k0_of (w || has "win" l) (c || has "ctrl" l)
        (s || has "shift" l) (a || has "alt" l).
Proof.
  induction l as [|v l IH]; intros w c s a kn.
  - simpl. now rewrite !orb_false_r.
  - cbn [fold_left has existsb].
    destruct (longStep (k0_of w c s a, kn) v) as [k0' kn'] eqn:E.
    pose proof (longStep_k0_of w c s a kn v) as H.
    rewrite E in H; cbn [fst] in H; subst k0'.
    rewrite IH, <- !orb_assoc. reflexivity.
Qed.

(** [modifierSort] in closed form. *)
Lemma modifierSort_long splitStr hkStr signalStr :
  let l := Split hkStr splitStr in
  l <> [] -> List.length l <> 2%nat ->
  modifierSortOf (getHkInfo splitStr hkStr signalStr) =
  canon (has "win" l) (has "ctrl" l) (has "shift" l) (has "alt" l).
Proof.
  intros l Hne H2. unfold getHkInfo. fold l.
  destruct (Nat.eqb_spec (List.length l) 0) as [E0|_].
  { destruct l; [congruence | discriminate]. }
  destruct (Nat.eqb_spec (List.length l) 2) as [E2|_]; [contradiction|].
  destruct (fold_left longStep l (k0_init, "")) as [k0 kn] eqn:E.
  pose proof (fold_longStep l false false false false "") as H.
  change (k0_of false false false false) with k0_init in H.
  rewrite E in H; cbn [fst] in H. subst k0. reflexivity.
Qed.

Lemma modifierSort_short splitStr hkStr signalStr m k :
  Split hkStr splitStr = [m; k] ->
  modifierSortOf (getHkInfo splitStr hkStr signalStr) =
  let l := Split m "" in
  canon (has "w" l) (has "c" l) (has "s" l) (has "a" l).
Proof.
  intros E. unfold getHkInfo. rewrite E. simpl.
  change k0_init with (k0_of false false false false).
  rewrite fold_shortStep. reflexivity.
Qed.

Lemma genSplit_nonempty sep s : forall skip cur, genSplit sep s skip cur <> [].
Proof.
  induction s as [|c s IH]; intros skip cur; [easy|].
  cbn [genSplit]. destruct skip; [|apply IH].
  destruct (String.prefix sep (String c s)); [easy | apply IH].
Qed.

Lemma Split_nonempty s sep : sep <> "" -> Split s sep <> [].
Proof.
  intros Hsep. unfold Split.
  destruct (String.eqb_spec sep ""); [contradiction|].
  apply genSplit_nonempty.
Qed.

Lemma signal_default splitStr hkStr signalStr :
  Split hkStr splitStr <> [] ->
  signalStr <> "up" -> signalStr <> "press" ->
  signalOf (getHkInfo splitStr hkStr signalStr) = "down".
Proof.
  intros Hne Hup Hpress. unfold getHkInfo.
  destruct (Split hkStr splitStr) as [|x l]; [congruence|].
  cbn [List.length Nat.eqb].
  match goal with
  | |- signalOf (let '(_, _) := ?p in _) = _ => destruct p
  end.
  unfold signalOf, normSignal; simpl.
  destruct (String.eqb_spec signalStr "up"); [contradiction|].
  destruct (String.eqb_spec signalStr "press"); [contradiction|].
  reflexivity.
Qed.

End Normalisation.

(** C10 (as the code has it).  [getHkInfo] returns as [modifierSort] a
    sub-word of ["wcsa"], whatever the order and the repetitions of the
    input, and it holds exactly the modifiers recognised: in the long form
    (the input does not split into exactly two tokens) the letter of each
    of the tokens [win], [ctrl], [shift], [alt] that occurs among the
    tokens; in the short form (exactly two tokens) each of the characters
    [w], [c], [s], [a] that occurs in the first token.  So in the long
    form any permutation of the tokens yields the same [modifierSort], and
    in the short form any permutation of the characters of the first token
    does.  Provided the input splits into at least one token, which is the
    case for every non-empty separator, the signal is ["down"] whenever the
    signal argument is neither ["up"] nor ["press"]. *)
Theorem getHkInfo_normalises (splitStr hkStr hkStr' signalStr : string) :
  (exists w c s a,
     modifierSortOf (getHkInfo splitStr hkStr signalStr) = canon w c s a) /\
  (List.length (Split hkStr splitStr) <> 2%nat ->
   let l := Split hkStr splitStr in
   modifierSortOf (getHkInfo splitStr hkStr signalStr)
   = canon (has "win" l) (has "ctrl" l) (has "shift" l) (has "alt" l)) /\
  (forall m k,
     Split hkStr splitStr = [m; k] ->
     let l := Split m "" in
     modifierSortOf (getHkInfo splitStr hkStr signalStr)
     = canon (has "w" l) (has "c" l) (has "s" l) (has "a" l)) /\
  (List.length (Split hkStr splitStr) <> 2%nat ->
   Permutation (Split hkStr splitStr) (Split hkStr' splitStr) ->
   modifierSortOf (getHkInfo splitStr hkStr signalStr) =
   modifierSortOf (getHkInfo splitStr hkStr' signalStr)) /\
  (forall m k m' k',
     Split hkStr splitStr = [m; k] -> Split hkStr' splitStr = [m'; k'] ->
     Permutation (Split m "") (Split m' "") ->
     modifierSortOf (getHkInfo splitStr hkStr signalStr) =
     modifierSortOf (getHkInfo splitStr hkStr' signalStr)) /\
  (splitStr <> "" \/ hkStr <> "" ->
   signalStr <> "up" -> signalStr <> "press" ->
   signalOf (getHkInfo splitStr hkStr signalStr) = "down").
Proof.
  assert (Hlong : List.length (Split hkStr splitStr) <> 2%nat ->
                  modifierSortOf (getHkInfo splitStr hkStr signalStr)
                  = canon (has "win" (Split hkStr splitStr))
                          (has "ctrl" (Split hkStr splitStr))
                          (has "shift" (Split hkStr splitStr))
                          (has "alt" (Split hkStr splitStr))).
  { intros N2. destruct (Split hkStr splitStr) as [|x l] eqn:E.
    - unfold getHkInfo. rewrite E. reflexivity.
    - pose proof (modifierSort_long splitStr hkStr signalStr) as H.
      cbv zeta in H. rewrite E in H. apply H; [congruence | exact N2]. }
  split; [|split; [exact Hlong|split; [|split; [|split]]]].
  - destruct (Nat.eq_dec (List.length (Split hkStr splitStr)) 2%nat)
      as [E2|N2].
    + destruct (Split hkStr splitStr) as [|m [|k [|z l]]] eqn:E;
        try discriminate.
      rewrite (modifierSort_short _ _ _ _ _ E). cbv zeta. eauto.
    + rewrite (Hlong N2). eauto.
  - intros m k E. exact (modifierSort_short _ _ _ _ _ E).
  - intros N2 P.
    destruct (Split hkStr splitStr) as [|x l] eqn:E.
    + apply Permutation_nil in P.
      unfold getHkInfo. rewrite E, P. reflexivity.
    + pose proof (modifierSort_long splitStr hkStr signalStr) as H.
      pose proof (modifierSort_long splitStr hkStr' signalStr) as H'.
      cbv zeta in H, H'. rewrite E in H.
      rewrite H by (congruence || exact N2).
      rewrite H'.
      * now rewrite !(has_Permutation _ _ _ P).
      * intros E'. rewrite E' in P. symmetry in P.
        apply Permutation_nil in P. discriminate.
      * rewrite <- (Permutation_length P). exact N2.
  - intros m k m' k' E E' P.
    rewrite (modifierSort_short _ _ _ _ _ E), (modifierSort_short _ _ _ _ _ E').
    cbv zeta. now rewrite !(has_Permutation _ _ _ P).
  - intros Hne Hup Hpress. apply signal_default; trivial.
    destruct (String.eqb_spec splitStr "") as [->|N].
    + destruct Hne as [Hne|Hne]; [congruence|].
      unfold Split, explode. simpl.
      destruct hkStr; [congruence | discriminate].
    + now apply Split_nonempty.
Qed.

Lemma getHkInfo_normalises_witness :
  modifierSortOf (getHkInfo "_" "shift_alt_z_ctrl" "") = canon false true true true /\
  modifierSortOf (getHkInfo "_" "sac_z" "") = canon false true true true /\
  modifierSortOf (getHkInfo "_" "shift_alt_z_ctrl" "")
  = modifierSortOf (getHkInfo "_" "ctrl_z_alt_shift" "") /\
  modifierSortOf (getHkInfo "_" "sac_z" "")
  = modifierSortOf (getHkInfo "_" "cas_z" "") /\
  signalOf (getHkInfo "_" "shift_alt_z_ctrl" "") = "down".
Proof.
  destruct (getHkInfo_normalises "_" "shift_alt_z_ctrl" "ctrl_z_alt_shift" "")
    as (_ & Hform & _ & Hlong & _ & Hsignal).
  destruct (getHkInfo_normalises "_" "sac_z" "cas_z" "")
    as (_ & _ & Hform' & _ & Hshort & _).
  split; [|split; [|split; [|split]]].
  - apply Hform. vm_compute. discriminate.
  - apply (Hform' "sac" "z"). reflexivity.
  - apply Hlong.
    + vm_compute. discriminate.
    + change (Split "ctrl_z_alt_shift" "_")
        with (rev (Split "shift_alt_z_ctrl" "_")).
      apply Permutation_rev.
  - apply (Hshort "sac" "z" "cas" "z"); try reflexivity.
    change (Split "sac" "") with (rev (Split "cas" "")).
    symmetry. apply Permutation_rev.
  - apply Hsignal; [left|..]; discriminate.
Defined.

(** C10 as stated fails on inputs of exactly two tokens, which [getHkInfo]
    reads in the short form: the two modifier tokens [ctrl] and [shift]
    give ["c"] in one order and ["s"] in the other, and a modifier token
    placed after the key is not recognised at all.  It also fails for the
    signal when [SetSplitStr("")] is in force and the input is empty. *)
Lemma getHkInfo_two_tokens_order_matters :
  Permutation ["ctrl"; "shift"] ["shift"; "ctrl"] /\
  Split "ctrl_shift" "_" = ["ctrl"; "shift"] /\
  Split "shift_ctrl" "_" = ["shift"; "ctrl"] /\
  modifierSortOf (getHkInfo "_" "ctrl_shift" "") = "c" /\
  modifierSortOf (getHkInfo "_" "shift_ctrl" "") = "s" /\
  modifierSortOf (getHkInfo "_" "ctrl_z" "") = "c" /\
  modifierSortOf (getHkInfo "_" "z_ctrl" "") = "" /\
  signalOf (getHkInfo "" "" "") <> "down".
Proof.
  repeat split; try reflexivity.
  - apply perm_swap.
  - vm_compute. discriminate.
Qed.

(** ** The handle and the registry *)

Section EngineFacts.

Context {OS : Type}.
Variable RegisterHotKey : Z -> Z -> Z -> Z -> OS -> bool * option error * OS.
Variable UnregisterHotKey : Z -> Z -> OS -> bool * option error * OS.
Variable hkString : Hotkey -> string.

Local Abbreviation handleIter :=
  (handleIter RegisterHotKey UnregisterHotKey hkString).
Local Abbreviation send := (send RegisterHotKey UnregisterHotKey hkString).
Local Abbreviation register :=
  (register RegisterHotKey UnregisterHotKey hkString).
Local Abbreviation unregister :=
  (unregister RegisterHotKey UnregisterHotKey hkString).
Local Abbreviation Register :=
  (Register RegisterHotKey UnregisterHotKey hkString).
Local Abbreviation Unregister :=
  (Unregister RegisterHotKey UnregisterHotKey hkString).
Local Abbreviation pollStep := (pollStep hkString).
Local Abbreviation step := (step RegisterHotKey UnregisterHotKey hkString).
Local Abbreviation run := (run RegisterHotKey UnregisterHotKey hkString).
Local Abbreviation World := (@World OS).
Local Abbreviation registered_world :=
  (registered_world RegisterHotKey).
Local Abbreviation unregistered_world :=
  (unregistered_world UnregisterHotKey).

Lemma register_unregistered a hk (w : World) :
  heap w !! a = Some hk ->
  registered (platform hk) = false ->
  register a w =
  Some ((let '(ok, err, _) :=
           RegisterHotKey 0 ((hotkeyIdVar w + 1) mod 2 ^ 64)
                          (modBits (mods hk)) (key hk) (os w) in
         if ok then None else err),
        registered_world a hk w).
Proof.
  intros Hhk Hreg. unfold hotkey.register, hotkey.registered_world.
  rewrite Hhk, Hreg.
  unfold hotkey.send, hotkey.handleIter. cbn.
  rewrite !lookup_insert_eq. cbn.
  destruct (RegisterHotKey 0 _ _ _ _) as [[ok err] o]. cbn.
  destruct ok; cbn; rewrite alter_insert_eq; reflexivity.
Qed.

Lemma own_true c a : own c a = true <-> c = onWorker a.
Proof.
  destruct c as [|b]; cbn; [split; discriminate|].
  rewrite Pos.eqb_eq. split; congruence.
Qed.

Lemma own_false c a : own c a = false <-> c <> onWorker a.
Proof.
  rewrite <- own_true. destruct (own c a); split; congruence.
Qed.

(** Called from a callback on the handle's own worker, [unregister] of a
    registered handle never returns. *)
Lemma unregister_own a hk (w : World) :
  heap w !! a = Some hk ->
  registered (platform hk) = true ->
  unregister (onWorker a) a w = None.
Proof.
  intros Hhk Hreg. unfold hotkey.unregister. rewrite Hhk, Hreg.
  cbn [negb own]. rewrite Pos.eqb_refl. reflexivity.
Qed.

Lemma unregister_registered c a hk wk (w : World) :
  heap w !! a = Some hk ->
  registered (platform hk) = true ->
  workers w !! a = Some wk ->
  running wk = true ->
  own c a = false ->
  unregister c a w = Some (None, unregistered_world a hk w).
Proof.
  intros Hhk Hreg Hwk Hrun Hown.
  unfold hotkey.unregister, hotkey.unregistered_world.
  rewrite Hhk, Hreg, Hown.
  unfold hotkey.send, hotkey.handleIter.
  rewrite Hhk, Hwk, Hrun.
  assert (Hsel : forall f,
             select (Some f) (canceled (platform hk)) (choice idleTick)
             = selFunc f)
    by (intros f; now destruct (canceled (platform hk))).
  cbn [negb peek idleTick]. rewrite Hsel. cbn.
  destruct (UnregisterHotKey 0 _ _) as [[ok err] o]. cbn.
  rewrite lookup_alter_eq, Hhk. cbn.
  rewrite (alter_alt_Some _ _ _ _ Hhk).
  rewrite alter_insert_eq. cbn. reflexivity.
Qed.

Lemma unregister_not_registered c a hk (w : World) :
  heap w !! a = Some hk ->
  registered (platform hk) = false ->
  unregister c a w = Some (Some NotRegistered, w).
Proof.
  intros Hhk Hreg. unfold hotkey.unregister. now rewrite Hhk, Hreg.
Qed.

(** [unregister] reports no error other than "hotkey is not registered",
    and that one without having done anything. *)
Lemma unregister_error c a e (w w' : World) :
  unregister c a w = Some (Some e, w') ->
  e = NotRegistered /\ w' = w /\
  exists hk, heap w !! a = Some hk /\ registered (platform hk) = false.
Proof.
  unfold hotkey.unregister.
  destruct (heap w !! a) as [hk|] eqn:Hhk; [|discriminate].
  destruct (registered (platform hk)) eqn:Hreg; cbn.
  - destruct (send _ a _ w) as [[w1 ans]|]; [|discriminate].
    destruct (heap w1 !! a) as [hk1|]; [|discriminate].
    destruct (canceled (platform hk1)); discriminate.
  - intros [= <- <-]. eauto.
Qed.

Lemma register_registered a hk (w : World) :
  heap w !! a = Some hk ->
  registered (platform hk) = true ->
  register a w = Some (Some errAlreadyRegistered, w).
Proof.
  intros Hhk Hreg. unfold hotkey.register. now rewrite Hhk, Hreg.
Qed.

(** C8.  A handle has at most one live registration: [register] on a
    handle whose [registered] flag is set returns the error
    "hotkey already registered" and changes nothing: no identifier is
    drawn, no worker is started, the operating system is not called. *)
Theorem register_twice_rejected a hk (w : World) :
  heap w !! a = Some hk ->
  registered (platform hk) = true ->
  register a w = Some (Some DuplicateRegistration, w).
Proof.
  intros Hhk Hreg. exact (register_registered a hk w Hhk Hreg).
Qed.

(** C7.  [Unregister] on an identity without an entry, whoever calls it,
    returns [nil] and leaves the world as it is; so does a second call
    right after. *)
Theorem Unregister_absent c modifier key (w : World) :
  registeredHotkey w !! identity w modifier key = None ->
  Unregister c modifier key w = Some (None, w) /\
  (Unregister c modifier key w ≫= fun r => Unregister c modifier key r.2)
  = Some (None, w).
Proof.
  intros Hnone.
  assert (H : Unregister c modifier key w = Some (None, w)).
  { unfold hotkey.Unregister, identity in *.
    destruct (getHkInfo (splitStr w) modifier key) as [[ms kn] sg].
    now rewrite Hnone. }
  split; [exact H|]. rewrite H. cbn. exact H.
Qed.


(** [Register] with a key name of the table, step by step: the handle is
    allocated, filed under the identity, and only then registered. *)
Lemma Register_known_key modifier key callbacks keyCode (w : World) :
  let info := getHkInfo (splitStr w) modifier key in
  let a := fresh (dom (heap w)) in
  let hk :=
    mkHotkey (mkPlatformHotkey 0 false false) (signalOf info) callbacks
             (getModifier (modifierSortOf info)) keyCode in
  let w3 :=
    set_registeredHotkey
      (<[identity w modifier key := a]> (registeredHotkey w))
      (set_heap (<[a := hk]> (heap w)) w) in
  keyCodeWin !! keyNameOf info = Some keyCode ->
  Register modifier key callbacks w =
  Some ((let '(ok, err, _) :=
           RegisterHotKey 0 ((hotkeyIdVar w + 1) mod 2 ^ 64)
                          (modBits (getModifier (modifierSortOf info)))
                          keyCode (os w) in
         if ok then None else err),
        registered_world a hk w3).
Proof.
  intros info a hk w3 Hkey. subst info a hk w3.
  unfold hotkey.Register, identity.
  destruct (getHkInfo (splitStr w) modifier key) as [[ms kn] sg].
  cbn [modifierSortOf keyNameOf signalOf fst snd] in *.
  rewrite Hkey. cbn [New].
  set (a := fresh (dom (heap w))).
  set (hk := mkHotkey _ sg callbacks _ keyCode).
  match goal with
  | |- hotkey.register _ _ _ a ?W = _ =>
      rewrite (register_unregistered a hk W)
        by (reflexivity || apply lookup_insert_eq)
  end.
  unfold hotkey.registered_world. cbn.
  rewrite insert_insert_eq. reflexivity.
Qed.

(** C2 (as the code has it).  [Register] looks for no earlier entry.  A
    second call with the same identity, made while the first registration
    is active, builds a fresh handle and reports exactly what the
    operating system answers to the registration of that handle: [nil]
    when it accepts, its error when it refuses; the error
    "hotkey already registered" of the handle is never involved.  The
    first handle, its registration and its worker are left as they are. *)
Theorem Register_again modifier key callbacks keyCode a1 hk1 (w : World) :
  registeredHotkey w !! identity w modifier key = Some a1 ->
  heap w !! a1 = Some hk1 ->
  registered (platform hk1) = true ->
  keyCodeWin !! keyNameOf (getHkInfo (splitStr w) modifier key)
  = Some keyCode ->
  exists w',
    Register modifier key callbacks w =
    Some ((let '(ok, err, _) :=
             RegisterHotKey 0 ((hotkeyIdVar w + 1) mod 2 ^ 64)
               (modBits
                  (getModifier
                     (modifierSortOf
                        (getHkInfo (splitStr w) modifier key))))
               keyCode (os w) in
           if ok then None else err), w') /\
    heap w' !! a1 = Some hk1 /\
    workers w' !! a1 = workers w !! a1.
Proof.
  intros Hentry Hhk1 Hreg Hkey.
  pose proof (Register_known_key modifier key callbacks keyCode w Hkey) as H.
  cbv zeta in H. eexists. split; [exact H|].
  assert (Hne : fresh (dom (heap w)) <> a1).
  { intros E. pose proof (is_fresh (dom (heap w))) as Hf.
    rewrite E in Hf. apply Hf, elem_of_dom. eauto. }
  unfold hotkey.registered_world.
  destruct (RegisterHotKey 0 _ _ _ _) as [[ok err] o]. cbn.
  rewrite !lookup_insert_ne by exact Hne. auto.
Qed.

(** C3 (what the code does).  When the operating system refuses the
    registration, [Register] returns its error after closing
    [hk.canceled], but the entry it filed before the attempt stays in the
    registry, pointing at a handle that is not registered. *)
Theorem Register_refused_entry_stays modifier key callbacks keyCode err o
    (w : World) :
  keyCodeWin !! keyNameOf (getHkInfo (splitStr w) modifier key)
  = Some keyCode ->
  RegisterHotKey 0 ((hotkeyIdVar w + 1) mod 2 ^ 64)
    (modBits
       (getModifier (modifierSortOf (getHkInfo (splitStr w) modifier key))))
    keyCode (os w) = (false, err, o) ->
  exists w' hk,
    Register modifier key callbacks w = Some (err, w') /\
    registeredHotkey w' !! identity w modifier key
    = Some (fresh (dom (heap w))) /\
    heap w' !! fresh (dom (heap w)) = Some hk /\
    registered (platform hk) = false /\
    canceled (platform hk) = true.
Proof.
  intros Hkey Hos.
  pose proof (Register_known_key modifier key callbacks keyCode w Hkey) as H.
  cbv zeta in H. rewrite Hos in H.
  eexists; eexists. split; [exact H|].
  unfold hotkey.registered_world.
  cbn [os hotkeyIdVar set_registeredHotkey set_heap mods hotkey.key].
  rewrite Hos. cbn.
  rewrite !lookup_insert_eq. auto.
Qed.



(** ** The worker loop *)

Lemma world_same a wk (w : World) :
  workers w !! a = Some wk ->
  emit [] (set_workers (<[a := wk]> (workers w)) w) = w.
Proof.
  intros Hwk. unfold emit, set_workers. cbn.
  rewrite (insert_id _ _ _ Hwk), app_nil_r. now destruct w.
Qed.

Lemma onHotkey_running hk wk : running (onHotkey hkString hk wk).1 = running wk.
Proof.
  unfold onHotkey.
  destruct (String.eqb (Signal hk) "down" || String.eqb (Signal hk) "press").
  - destruct (keyDown wk); cbn; [reflexivity|].
    destruct (String.eqb (Signal hk) "press"); reflexivity.
  - destruct (String.eqb (Signal hk) "up"); [|reflexivity].
    destruct (keyUp wk); reflexivity.
Qed.

Lemma runClosure_workers a f (w : World) :
  workers (runClosure RegisterHotKey UnregisterHotKey a f w).1 = workers w.
Proof.
  destruct f as [id m vk|id]; cbn.
  - now destruct (RegisterHotKey 0 id m vk (os w)) as [[ok err] o].
  - now destruct (UnregisterHotKey 0 id (os w)) as [[ok err] o].
Qed.

(** C9.  One iteration of the loop of a running worker always completes,
    and it leaves the loop in exactly three cases: no message is pending
    and the [select] takes the closed [hk.canceled]; [GetMessage] fails;
    the message retrieved is [wmQuit].  In every other case the worker
    keeps running.  An iteration runs at most one closure, the one being
    sent, and only when no message is pending. *)
Theorem handleIter_exits a sender t hk wk (w : World) :
  heap w !! a = Some hk ->
  workers w !! a = Some wk ->
  running wk = true ->
  exists w' out,
    handleIter a sender t w = Some (w', out) /\
    (out = returned exitCanceled <->
     peek t = false /\ canceled (platform hk) = true /\
     (sender = None \/ choice t = false)) /\
    (out = returned exitGetMessage <-> peek t = true /\ got t = false) /\
    (out = returned exitQuit <->
     peek t = true /\ got t = true /\ message t = wmQuit) /\
    (running <$> workers w' !! a) =
      Some (match out with returned _ => false | _ => true end) /\
    (forall f answer,
       out = served f answer ->
       peek t = false /\ sender = Some f /\
       runClosure RegisterHotKey UnregisterHotKey a f w = (w', answer)) /\
    ((forall f answer, out <> served f answer) -> os w' = os w).
Proof.
  intros Hhk Hwk Hrun. unfold hotkey.handleIter.
  rewrite Hhk, Hwk, Hrun. cbn [negb].
  destruct t as [pk gt msg ch]. cbn [peek got message choice].
  destruct pk; cbn [negb].
  - destruct gt; cbn [negb].
    + destruct (Z.eqb_spec msg wmHotkey) as [->|Hh].
      * destruct (onHotkey hkString hk wk) as [wk' evs] eqn:Eon.
        do 2 eexists. split; [reflexivity|].
        repeat split; try (intros; intuition discriminate).
        cbn. rewrite lookup_insert_eq. cbn.
        pose proof (onHotkey_running hk wk) as R. rewrite Eon in R.
        cbn in R. now rewrite R, Hrun.
      * destruct (Z.eqb_spec msg wmQuit) as [->|Hq].
        -- do 2 eexists. split; [reflexivity|].
           repeat split; try (intros; intuition discriminate).
           cbn. rewrite lookup_alter_eq, Hwk. reflexivity.
        -- do 2 eexists. split; [reflexivity|].
           repeat split; try (intros; intuition (discriminate || congruence)).
           cbn. rewrite Hwk. cbn. now rewrite Hrun.
    + do 2 eexists. split; [reflexivity|].
      repeat split; try (intros; intuition discriminate).
      cbn. rewrite lookup_alter_eq, Hwk. reflexivity.
  - destruct sender as [f|], (canceled (platform hk)) eqn:Hc, ch; cbn;
      try (destruct (runClosure _ _ a f w) as [w1 ans] eqn:Erun);
      (do 2 eexists; split; [reflexivity|]);
      repeat split;
      try (intros; intuition (discriminate || congruence));
      try (cbn; rewrite ?lookup_alter_eq, Hwk; cbn; now rewrite ?Hrun);
      try (intros H; exfalso; eapply H; reflexivity);
      pose proof (runClosure_workers a f w) as Hw; rewrite Erun in Hw;
      cbn in Hw; rewrite Hw, Hwk; cbn; now rewrite Hrun.
Qed.


(** ** The edge detector *)

Lemma onHotkey_active hk wk :
  edgeState hk wk <> Idle -> onHotkey hkString hk wk = (wk, []).
Proof.
  unfold edgeState, onHotkey.
  destruct (String.eqb (Signal hk) "down" || String.eqb (Signal hk) "press").
  - destruct (keyDown wk); [reflexivity | congruence].
  - destruct (String.eqb (Signal hk) "up"); [|congruence].
    destruct (keyUp wk); [reflexivity | congruence].
Qed.

(** C6.  A hotkey message that arrives while the detector is [DownActive]
    or [UpWaiting] is ignored: the iteration that retrieves it leaves the
    world as it is, so no callback runs and the detector keeps its state.
    The same holds for any number of such messages in a row. *)
Theorem interrupt_while_active_ignored a hk wk sender pick n (w : World) :
  heap w !! a = Some hk ->
  workers w !! a = Some wk ->
  running wk = true ->
  edgeState hk wk <> Idle ->
  handleIter a sender (mkTick true true wmHotkey pick) w
  = Some (w, dispatched wmHotkey) /\
  run (repeat (interrupt a) n) w = w.
Proof.
  intros Hhk Hwk Hrun Hact.
  assert (H : forall sender pick,
             handleIter a sender (mkTick true true wmHotkey pick) w
             = Some (w, dispatched wmHotkey)).
  { intros sd pk. unfold hotkey.handleIter.
    rewrite Hhk, Hwk, Hrun. cbn.
    rewrite (onHotkey_active _ _ Hact), (world_same _ _ _ Hwk).
    reflexivity. }
  split; [apply H|].
  induction n as [|n IH]; [reflexivity|].
  cbn [repeat]. unfold hotkey.run in *. cbn [fold_left].
  unfold hotkey.step at 2, interrupt. rewrite H. exact IH.
Qed.

Lemma pollStep_held a hk wk j p state (w : World) :
  heap w !! a = Some hk ->
  workers w !! a = Some wk ->
  pollers wk !! j = Some p ->
  state <> 0 ->
  pollStep a j state w = w.
Proof.
  intros Hhk Hwk Hp Hs. unfold hotkey.pollStep, pollIter.
  rewrite Hhk, Hwk, Hp.
  destruct (Z.eqb_spec state 0) as [|_]; [contradiction|]. cbn [negb].
  apply world_same, Hwk.
Qed.

Lemma pollStep_release a hk wk j p (w : World) :
  heap w !! a = Some hk ->
  workers w !! a = Some wk ->
  pollers wk !! j = Some p ->
  p = pollDown \/ p = pollUp ->
  pollStep a j 0 w =
  emit (pollIter hkString hk p 0 wk).1.2
       (set_workers
          (<[a := dropPoller j (pollIter hkString hk p 0 wk).1.1]>
             (workers w)) w).
Proof.
  intros Hhk Hwk Hp Hloop. unfold hotkey.pollStep.
  rewrite Hhk, Hwk, Hp.
  unfold pollIter. cbn [Z.eqb negb].
  destruct Hloop as [-> | ->]; [destruct (keyPress wk)|]; reflexivity.
Qed.


Lemma run_held a hk wk j p held (w : World) :
  heap w !! a = Some hk ->
  workers w !! a = Some wk ->
  pollers wk !! j = Some p ->
  Forall (fun state => state <> 0) held ->
  run (map (pollerTick a j) held) w = w.
Proof.
  intros Hhk Hwk Hp. induction 1 as [|state held Hs _ IH]; [reflexivity|].
  unfold hotkey.run in *. cbn [map fold_left hotkey.step].
  rewrite (pollStep_held _ _ _ _ _ _ _ Hhk Hwk Hp Hs). exact IH.
Qed.

Lemma run_app acts acts' (w : World) :
  run (acts ++ acts') w = run acts' (run acts w).
Proof. apply fold_left_app. Qed.


Lemma interrupt_idle_press a hk wk (w : World) :
  heap w !! a = Some hk ->
  workers w !! a = Some wk ->
  running wk = true ->
  Signal hk = "press" ->
  keyDown wk = false ->
  run [interrupt a] w =
  emit [callOrPrint hkString hk 0 " start"]
       (set_workers
          (<[a := mkWorker true true (keyUp wk) true
                           (pollers wk ++ [pollDown])]> (workers w)) w).
Proof.
  intros Hhk Hwk Hrun Hsig Hdown.
  unfold hotkey.run, interrupt. cbn [fold_left hotkey.step].
  unfold hotkey.handleIter. rewrite Hhk, Hwk, Hrun. cbn.
  unfold onHotkey. rewrite Hsig, Hdown, Hrun. reflexivity.
Qed.

(** C5 (as the code has it).  For a hotkey of kind [press] at rest: the
    hotkey message runs the first callback, or, when there is none, prints
    the hotkey followed by " start"; nothing more happens while the poller
    finds the key held; the tick on which the poller finds the key
    released runs the second callback, or, when there is none, prints the
    hotkey followed by " end"; the poller is then gone and the detector at
    rest again.  With two callbacks the trace grows by exactly the two
    calls, in this order. *)
Theorem press_edges a hk wk held (w : World) :
  heap w !! a = Some hk ->
  workers w !! a = Some wk ->
  running wk = true ->
  Signal hk = "press" ->
  keyDown wk = false ->
  Forall (fun state => state <> 0) held ->
  let j := List.length (pollers wk) in
  let down := run [interrupt a] w in
  let holding := run (map (pollerTick a j) held) down in
  let released := run [pollerTick a j 0] holding in
  trace down = (trace w ++ [callOrPrint hkString hk 0 " start"])%list /\
  trace holding = trace down /\
  trace released =
    (trace w ++ [callOrPrint hkString hk 0 " start";
                 callOrPrint hkString hk 1 " end"])%list /\
  workers released !! a =
    Some (mkWorker true false (keyUp wk) false (pollers wk)) /\
  (forall f0 f1 rest,
     Callbacks hk = f0 :: f1 :: rest ->
     trace released = (trace w ++ [Invoke f0; Invoke f1])%list).
Proof.
  intros Hhk Hwk Hrun Hsig Hdown Hheld j down holding released.
  assert (Edown : down = _)
    by exact (interrupt_idle_press a hk wk w Hhk Hwk Hrun Hsig Hdown).
  set (wk1 := mkWorker true true (keyUp wk) true (pollers wk ++ [pollDown]))
    in Edown.
  assert (Hhk1 : heap down !! a = Some hk) by (rewrite Edown; exact Hhk).
  assert (Hwk1 : workers down !! a = Some wk1)
    by (rewrite Edown; cbn; apply lookup_insert_eq).
  assert (Hp : pollers wk1 !! j = Some pollDown)
    by (cbn; now apply list_lookup_middle).
  assert (Eholding : holding = down)
    by exact (run_held a hk wk1 j pollDown held down Hhk1 Hwk1 Hp Hheld).
  assert (Ereleased : released = pollStep a j 0 down)
    by (subst released; rewrite Eholding; reflexivity).
  rewrite (pollStep_release a hk wk1 j pollDown down Hhk1 Hwk1 Hp
             (or_introl eq_refl))
    in Ereleased.
  clearbody released holding down. subst released holding down.
  unfold dropPoller. cbn.
  replace (delete j (pollers wk ++ [pollDown])%list) with (pollers wk)
    by (symmetry; rewrite <- (app_nil_r (pollers wk)) at 2;
        now apply delete_middle).
  rewrite <- app_assoc. cbn.
  repeat split.
  - now rewrite lookup_insert_eq.
  - intros f0 f1 rest Hcb. unfold callOrPrint. rewrite Hcb. reflexivity.
Qed.


(** ** Cancellation *)

Lemma unregister_success c a hk wk (w w1 : World) :
  heap w !! a = Some hk ->
  workers w !! a = Some wk ->
  unregister c a w = Some (None, w1) ->
  registered (platform hk) = true /\ running wk = true /\
  w1 = unregistered_world a hk w /\ c <> onWorker a.
Proof.
  intros Hhk Hwk Hu.
  destruct (registered (platform hk)) eqn:Hreg.
  - destruct (own c a) eqn:Hown.
    { apply own_true in Hown as ->.
      rewrite (unregister_own _ _ _ Hhk Hreg) in Hu. discriminate. }
    destruct (running wk) eqn:Hrun.
    + rewrite (unregister_registered _ _ _ _ _ Hhk Hreg Hwk Hrun Hown) in Hu.
      apply own_false in Hown. now injection Hu as <-.
    + unfold hotkey.unregister, hotkey.send, hotkey.handleIter in Hu.
      rewrite Hhk, Hreg, Hwk, Hrun, Hown in Hu. discriminate.
  - rewrite (unregister_not_registered _ _ _ _ Hhk Hreg) in Hu. discriminate.
Qed.




(** ** The invariant of the channels *)

Lemma step_heap act (w : World) : heap (step w act) = heap w.
Proof.
  destruct act as [a t|a j state|a j state]; cbn [hotkey.step].
  - unfold hotkey.handleIter.
    destruct (heap w !! a) as [hk|]; [|reflexivity].
    destruct (workers w !! a) as [wk|]; [|reflexivity].
    destruct (running wk); [|reflexivity]. cbn [negb].
    destruct (peek t); cbn [negb].
    + destruct (got t); cbn [negb]; [|reflexivity].
      destruct (message t =? wmHotkey).
      * now destruct (onHotkey hkString hk wk).
      * now destruct (message t =? wmQuit).
    + now destruct (canceled (platform hk)).
  - unfold hotkey.pollStep.
    destruct (heap w !! a) as [hk|]; [|reflexivity].
    destruct (workers w !! a) as [wk|]; [|reflexivity].
    destruct (pollers wk !! j) as [p|]; [|reflexivity].
    now destruct (pollIter hkString hk p state wk) as [[wk' evs] fin].
  - unfold hotkey.moveStep.
    destruct (heap w !! a) as [hk|]; [|reflexivity].
    destruct (workers w !! a) as [wk|]; [|reflexivity].
    destruct (pollers wk !! j) as [p|]; [|reflexivity].
    now destruct (pollMove hkString hk p state wk) as [[wk' evs] next].
Qed.

Lemma channels_ok_run acts : forall w : World,
  channels_ok w -> channels_ok (run acts w).
Proof.
  induction acts as [|act acts IH]; intros w Hw; [exact Hw|].
  apply IH. intros a hk. rewrite step_heap. apply Hw.
Qed.

Lemma channels_ok_Register modifier key callbacks e (w w' : World) :
  Register modifier key callbacks w = Some (e, w') ->
  channels_ok w -> channels_ok w'.
Proof.
  intros HR Hw.
  destruct (keyCodeWin !! keyNameOf (getHkInfo (splitStr w) modifier key))
    as [keyCode|] eqn:Hkey.
  - rewrite (Register_known_key _ _ _ _ _ Hkey) in HR.
    injection HR as _ <-. unfold hotkey.registered_world.
    destruct (RegisterHotKey 0 _ _ _ _) as [[ok err] o].
    intros a hk. cbn [heap set_registeredHotkey set_heap].
    destruct (decide (a = fresh (dom (heap w)))) as [->|Hne].
    + rewrite lookup_insert_eq. intros [= <-]. cbn. now intros ->.
    + rewrite !lookup_insert_ne by congruence. apply Hw.
  - unfold hotkey.Register in HR.
    destruct (getHkInfo (splitStr w) modifier key) as [[ms kn] sg].
    cbn [keyNameOf fst snd] in Hkey. rewrite Hkey in HR.
    now injection HR as _ <-.
Qed.

Lemma unregister_inv c a (w w1 : World) :
  unregister c a w = Some (None, w1) ->
  exists hk, heap w !! a = Some hk /\ w1 = unregistered_world a hk w.
Proof.
  intros Hu. pose proof Hu as Hu'. unfold hotkey.unregister in Hu'.
  destruct (heap w !! a) as [hk|] eqn:Hhk; [|discriminate].
  destruct (registered (platform hk)) eqn:Hreg; [|discriminate].
  cbn [negb] in Hu'. unfold hotkey.send, hotkey.handleIter in Hu'.
  destruct (own c a); [discriminate|].
  rewrite Hhk in Hu'.
  destruct (workers w !! a) as [wk|] eqn:Hwk; [|discriminate].
  exists hk. split; [reflexivity|].
  now destruct (unregister_success _ _ _ _ _ _ Hhk Hwk Hu) as (_ & _ & -> & _).
Qed.

Lemma channels_ok_Unregister c modifier key e (w w' : World) :
  Unregister c modifier key w = Some (e, w') ->
  channels_ok w -> channels_ok w'.
Proof.
  unfold hotkey.Unregister.
  destruct (getHkInfo (splitStr w) modifier key) as [[ms kn] sg].
  destruct (registeredHotkey w !! (ms +:+ kn +:+ sg)) as [a|].
  - destruct (unregister c a w) as [[[e'|] w1]|] eqn:Hu; try discriminate.
    + intros [= _ <-] Hw.
      now apply unregister_error in Hu as (_ & -> & _).
    + intros [= _ <-] Hw.
      apply unregister_inv in Hu as (hk & Hhk & ->).
      unfold hotkey.unregistered_world.
      destruct (UnregisterHotKey 0 _ _) as [[ok err] o].
      intros a' hk'. cbn [heap set_registeredHotkey].
      destruct (decide (a' = a)) as [->|Hne].
      * rewrite lookup_insert_eq. intros [= <-]. discriminate.
      * rewrite lookup_insert_ne by congruence. apply Hw.
  - intros [= _ <-] Hw. exact Hw.
Qed.

End EngineFacts.

(** ** One live registration per handle

    Even on an operating system that refuses nothing, whatever sequence of
    [register] and [unregister] is applied to a handle, the live
    registrations are the single identifier of the handle while it is
    registered, and none otherwise. *)

Section OneRegistration.

Lemma one_live_handleOps a ops : forall w,
  LaxOS.one_live a w -> LaxOS.one_live a (LaxOS.handleOps a ops w).
Proof.
  induction ops as [|op ops IH]; intros w Hw; [exact Hw|].
  destruct Hw as (hk & Hhk & Hos).
  unfold LaxOS.handleOps in *. cbn [handleOps].
  destruct op.
  - destruct (registered (platform hk)) eqn:Hreg.
    + rewrite (register_registered _ _ _ _ _ _ Hhk Hreg).
      apply IH. exists hk. now rewrite Hreg.
    + rewrite (register_unregistered _ _ _ _ _ _ Hhk Hreg).
      apply IH. unfold registered_world. cbn.
      eexists. split; [apply lookup_insert_eq|]. cbn. now rewrite Hos.
  - destruct (registered (platform hk)) eqn:Hreg.
    + destruct (unregister _ _ _ elsewhere a w) as [[e w1]|] eqn:Hu;
        [|exists hk; now rewrite Hreg].
      apply IH. destruct e as [e|].
      * apply unregister_error in Hu as (_ & _ & hk' & Hhk' & Hreg').
        congruence.
      * apply unregister_inv in Hu as (hk' & Hhk' & ->).
        assert (hk' = hk) by congruence. subst hk'.
        unfold unregistered_world. cbn.
        eexists. split; [apply lookup_insert_eq|]. cbn.
        rewrite Hos. cbn. now destruct (Z.eq_dec _ _).
    + rewrite (unregister_not_registered _ _ _ _ _ _ _ Hhk Hreg).
      apply IH. exists hk. now rewrite Hreg.
Qed.

End OneRegistration.

(** ** The scenarios of the examples are runs of the program *)

Section Scenarios.

Import Scenario.

Example w_up_reached :
  SimOS.Register "cs_z" "up" [7%nat] (SimOS.start []) = Some (None, w_up).
Proof. vm_compute. reflexivity. Qed.

Example w_waiting_reached : SimOS.run [interrupt 1%positive] w_up = w_waiting.
Proof. vm_compute. reflexivity. Qed.

Example w_gone_reached :
  SimOS.Unregister elsewhere "cs_z" "up" w_waiting = Some (None, w_gone).
Proof. vm_compute. reflexivity. Qed.

Example w_press_reached callbacks :
  SimOS.Register "cs_d" "press" callbacks (SimOS.start [])
  = Some (None, w_press callbacks).
Proof. vm_compute. reflexivity. Qed.

Example w_refused_reached :
  SimOS.Register "ctrl_z" "" [] w_foreign
  = Some (Some (winError 1409), w_refused).
Proof. vm_compute. reflexivity. Qed.

End Scenarios.

(** ** The theorems at work on the scenarios *)

Section Witnesses.

Import Scenario.

Local Abbreviation a1 := (1%positive).

Lemma register_twice_rejected_witness :
  heap w_up !! a1 = Some hk_up /\
  registered (platform hk_up) = true /\
  SimOS.register a1 w_up = Some (Some DuplicateRegistration, w_up).
Proof.
  assert (H1 : heap w_up !! a1 = Some hk_up) by reflexivity.
  assert (H2 : registered (platform hk_up) = true) by reflexivity.
  split; [exact H1|]. split; [exact H2|].
  exact (register_twice_rejected SimOS.RegisterHotKey SimOS.UnregisterHotKey
           SimOS.hkString a1 hk_up w_up H1 H2).
Defined.

Lemma Unregister_absent_witness :
  registeredHotkey (SimOS.start []) !! identity (SimOS.start []) "cs_z" "up"
  = None /\
  SimOS.Unregister elsewhere "cs_z" "up" (SimOS.start [])
  = Some (None, SimOS.start []).
Proof.
  assert (H : registeredHotkey (SimOS.start [])
              !! identity (SimOS.start []) "cs_z" "up" = None)
    by reflexivity.
  split; [exact H|].
  exact (proj1 (Unregister_absent SimOS.RegisterHotKey
                  SimOS.UnregisterHotKey SimOS.hkString
                  elsewhere "cs_z" "up" (SimOS.start []) H)).
Defined.

Lemma Register_again_witness :
  registeredHotkey w_up !! identity w_up "sc_z" "up" = Some a1 /\
  heap w_up !! a1 = Some hk_up /\
  registered (platform hk_up) = true /\
  keyCodeWin !! keyNameOf (getHkInfo (splitStr w_up) "sc_z" "up")
  = Some 0x5A /\
  exists w',
    SimOS.Register "sc_z" "up" [8%nat] w_up = Some (Some (winError 1409), w')
    /\ heap w' !! a1 = Some hk_up.
Proof.
  assert (H1 : registeredHotkey w_up !! identity w_up "sc_z" "up" = Some a1)
    by (vm_compute; reflexivity).
  assert (H2 : heap w_up !! a1 = Some hk_up) by reflexivity.
  assert (H3 : registered (platform hk_up) = true) by reflexivity.
  assert (H4 : keyCodeWin !! keyNameOf (getHkInfo (splitStr w_up) "sc_z" "up")
               = Some 0x5A) by (vm_compute; reflexivity).
  repeat (split; [assumption|]).
  destruct (Register_again SimOS.RegisterHotKey SimOS.UnregisterHotKey
              SimOS.hkString "sc_z" "up" [8%nat] 0x5A a1 hk_up w_up
              H1 H2 H3 H4) as (w' & HR & Hheap & _).
  exists w'. split; [exact HR | exact Hheap].
Defined.

Lemma Register_refused_entry_stays_witness :
  keyCodeWin !! keyNameOf (getHkInfo (splitStr w_foreign) "ctrl_z" "")
  = Some 0x5A /\
  SimOS.RegisterHotKey 0 ((hotkeyIdVar w_foreign + 1) mod 2 ^ 64)
    (modBits
       (getModifier
          (modifierSortOf (getHkInfo (splitStr w_foreign) "ctrl_z" ""))))
    0x5A (os w_foreign)
  = (false, Some (winError 1409), [(99, 2, 0x5A)]) /\
  exists w',
    SimOS.Register "ctrl_z" "" [] w_foreign = Some (Some (winError 1409), w')
    /\ registeredHotkey w' !! "czdown" = Some a1.
Proof.
  assert (H1 : keyCodeWin
               !! keyNameOf (getHkInfo (splitStr w_foreign) "ctrl_z" "")
               = Some 0x5A) by (vm_compute; reflexivity).
  assert (H2 : SimOS.RegisterHotKey 0 ((hotkeyIdVar w_foreign + 1) mod 2 ^ 64)
                 (modBits
                    (getModifier
                       (modifierSortOf
                          (getHkInfo (splitStr w_foreign) "ctrl_z" ""))))
                 0x5A (os w_foreign)
               = (false, Some (winError 1409), [(99, 2, 0x5A)]))
    by (vm_compute; reflexivity).
  split; [exact H1|]. split; [exact H2|].
  destruct (Register_refused_entry_stays SimOS.RegisterHotKey
              SimOS.UnregisterHotKey SimOS.hkString "ctrl_z" "" [] 0x5A
              (Some (winError 1409)) [(99, 2, 0x5A)] w_foreign H1 H2)
    as (w' & hk & HR & Hentry & _).
  exists w'. split; [exact HR | exact Hentry].
Defined.



Lemma handleIter_exits_witness :
  heap w_up !! a1 = Some hk_up /\
  workers w_up !! a1 = Some newWorker /\
  running newWorker = true /\
  (exists w',
     handleIter SimOS.RegisterHotKey SimOS.UnregisterHotKey SimOS.hkString
       a1 None (mkTick true true wmQuit true) w_up
     = Some (w', returned exitQuit)) /\
  (exists w' out,
     handleIter SimOS.RegisterHotKey SimOS.UnregisterHotKey SimOS.hkString
       a1 None (mkTick false false 0 true) w_up
     = Some (w', out) /\
     running <$> workers w' !! a1 = Some true).
Proof.
  assert (H1 : heap w_up !! a1 = Some hk_up) by reflexivity.
  assert (H2 : workers w_up !! a1 = Some newWorker) by reflexivity.
  assert (H3 : running newWorker = true) by reflexivity.
  repeat (split; [assumption|]).
  split.
  - destruct (handleIter_exits SimOS.RegisterHotKey SimOS.UnregisterHotKey
                SimOS.hkString a1 None (mkTick true true wmQuit true)
                hk_up newWorker w_up H1 H2 H3)
      as (w' & out & He & _ & _ & Hq & _).
    exists w'. rewrite He. do 2 f_equal. apply Hq. repeat split.
  - destruct (handleIter_exits SimOS.RegisterHotKey SimOS.UnregisterHotKey
                SimOS.hkString a1 None (mkTick false false 0 true)
                hk_up newWorker w_up H1 H2 H3)
      as (w' & out & He & Hc & _ & _ & Hr & _).
    exists w', out. split; [exact He|].
    etransitivity; [exact Hr|].
    destruct out as [| | |why]; try reflexivity.
    vm_compute in He. discriminate He.
Defined.

Lemma interrupt_while_active_ignored_witness :
  heap w_waiting !! a1 = Some hk_up /\
  workers w_waiting !! a1 = Some wk_waiting /\
  running wk_waiting = true /\
  edgeState hk_up wk_waiting <> Idle /\
  SimOS.run (repeat (interrupt a1) 3) w_waiting = w_waiting.
Proof.
  assert (H1 : heap w_waiting !! a1 = Some hk_up) by reflexivity.
  assert (H2 : workers w_waiting !! a1 = Some wk_waiting) by reflexivity.
  assert (H3 : running wk_waiting = true) by reflexivity.
  assert (H4 : edgeState hk_up wk_waiting <> Idle)
    by (vm_compute; discriminate).
  repeat (split; [assumption|]).
  exact (proj2 (interrupt_while_active_ignored SimOS.RegisterHotKey
                  SimOS.UnregisterHotKey SimOS.hkString a1 hk_up wk_waiting
                  None true 3 w_waiting H1 H2 H3 H4)).
Defined.

Lemma press_edges_witness :
  heap (w_press [3; 4]%nat) !! a1 = Some (hk_press [3; 4]%nat) /\
  workers (w_press [3; 4]%nat) !! a1 = Some newWorker /\
  running newWorker = true /\
  Signal (hk_press [3; 4]%nat) = "press" /\
  keyDown newWorker = false /\
  Forall (fun state => state <> 0) [1; -32767] /\
  trace (SimOS.run [pollerTick a1 0 0]
           (SimOS.run (map (pollerTick a1 0) [1; -32767])
              (SimOS.run [interrupt a1] (w_press [3; 4]%nat))))
  = [Invoke 3%nat; Invoke 4%nat].
Proof.
  assert (H1 : heap (w_press [3; 4]%nat) !! a1 = Some (hk_press [3; 4]%nat))
    by reflexivity.
  assert (H2 : workers (w_press [3; 4]%nat) !! a1 = Some newWorker)
    by reflexivity.
  assert (H3 : running newWorker = true) by reflexivity.
  assert (H4 : Signal (hk_press [3; 4]%nat) = "press") by reflexivity.
  assert (H5 : keyDown newWorker = false) by reflexivity.
  assert (H6 : Forall (fun state => state <> 0) [1; -32767])
    by (repeat constructor; discriminate).
  repeat (split; [assumption|]).
  destruct (press_edges SimOS.RegisterHotKey SimOS.UnregisterHotKey
              SimOS.hkString a1 (hk_press [3; 4]%nat) newWorker [1; -32767]
              (w_press [3; 4]%nat) H1 H2 H3 H4 H5 H6)
    as (_ & _ & _ & _ & Hcalls).
  exact (Hcalls 3%nat 4%nat [] eq_refl).
Defined.


End Witnesses.

(** ** Where the specification and the program part *)

Section Counterexamples.

Import Scenario.

Local Abbreviation a1 := (1%positive).
Local Abbreviation a2 := (2%positive).


(** C2 as stated fails.  The second [Register] for the identity
    ["cszup"] returns the error of the operating system, not
    "hotkey already registered", and the entry now points at the second
    handle. *)
Lemma second_Register_replaces_entry :
  SimOS.Register "cs_z" "up" [7%nat] (SimOS.start []) = Some (None, w_up) /\
  registeredHotkey w_up !! "cszup" = Some a1 /\
  identity w_up "cs_z" "up" = identity w_up "sc_z" "up" /\
  exists w',
    SimOS.Register "sc_z" "up" [8%nat] w_up
    = Some (Some (winError 1409), w') /\
    winError 1409 <> DuplicateRegistration /\
    registeredHotkey w' !! "cszup" = Some a2.
Proof.
  repeat split; try (vm_compute; reflexivity).
  eexists. split; [vm_compute; reflexivity|].
  split; [discriminate | vm_compute; reflexivity].
Qed.


(** C5 as stated fails in what it says of the default: with a single
    callback, the tick that finds the key released prints a line. *)
Lemma press_default_prints :
  SimOS.Register "cs_d" "press" [3%nat] (SimOS.start [])
  = Some (None, w_press [3%nat]) /\
  trace (SimOS.run [interrupt a1; pollerTick a1 0 0] (w_press [3%nat]))
  = [Invoke 3%nat; Println "hotkey end"] /\
  trace (SimOS.run [interrupt a1; pollerTick a1 0 0] (w_press []))
  = [Println "hotkey start"; Println "hotkey end"].
Proof. repeat split; vm_compute; reflexivity. Qed.

End Counterexamples.

(** * Further properties of the package *)

(** ** What [getHkInfo] hands on *)

Section NormalisationMore.

Lemma modifierSort_canon splitStr hkStr signalStr :
  exists w c s a,
    modifierSortOf (getHkInfo splitStr hkStr signalStr) = canon w c s a.
Proof.
  destruct (Split hkStr splitStr) as [|x l] eqn:E.
  - exists false, false, false, false.
    unfold getHkInfo. rewrite E. reflexivity.
  - destruct (Nat.eq_dec (List.length (x :: l)) 2%nat) as [E2|N2].
    + destruct l as [|y [|z l]]; try discriminate.
      rewrite (modifierSort_short _ _ _ _ _ E). cbv zeta. eauto.
    + pose proof (modifierSort_long splitStr hkStr signalStr) as H.
      cbv zeta in H. rewrite E in H. rewrite H by (congruence || exact N2).
      eauto.
Qed.

Lemma mask_canon w c s a :
  getModifier (canon w c s a) =
  ((if w then [ModWin] else []) ++ (if c then [ModCtrl] else [])
   ++ (if s then [ModShift] else []) ++ (if a then [ModAlt] else []))%list /\
  modBits (getModifier (canon w c s a)) =
  (if w then 8 else 0) + (if c then 2 else 0) + (if s then 4 else 0)
  + (if a then 1 else 0).
Proof. destruct w, c, s, a; split; vm_compute; reflexivity. Qed.

(** X1.  The modifier mask [register] computes for a hotkey made by
    [Register] has exactly the bits of the modifiers [getHkInfo] has
    recognised: the tokens [win], [ctrl], [shift], [alt] of a long-form
    input, the letters [w], [c], [s], [a] of the first token of a
    short-form input. *)
Theorem registered_mask splitStr hkStr signalStr :
  let mask :=
    modBits
      (getModifier (modifierSortOf (getHkInfo splitStr hkStr signalStr))) in
  let bits (w c s a : bool) :=
    (if w then ModWin else 0) + (if c then ModCtrl else 0)
    + (if s then ModShift else 0) + (if a then ModAlt else 0) in
  (List.length (Split hkStr splitStr) <> 2%nat ->
   let l := Split hkStr splitStr in
   mask = bits (has "win" l) (has "ctrl" l) (has "shift" l) (has "alt" l)) /\
  (forall m k,
     Split hkStr splitStr = [m; k] ->
     let l := Split m "" in
     mask = bits (has "w" l) (has "c" l) (has "s" l) (has "a" l)).
Proof.
  cbv zeta. split.
  - intros N2. destruct (Split hkStr splitStr) as [|x l] eqn:E.
    + unfold getHkInfo. rewrite E. reflexivity.
    + pose proof (modifierSort_long splitStr hkStr signalStr) as H.
      cbv zeta in H. rewrite E in H. rewrite H by (congruence || exact N2).
      apply mask_canon.
  - intros m k E. rewrite (modifierSort_short _ _ _ _ _ E). cbv zeta.
    apply mask_canon.
Qed.

Lemma last_cons {A} (x d : A) l : List.last (x :: l) d = List.last l x.
Proof.
  revert x. induction l as [|y l IH]; intros x; [reflexivity|].
  cbn [List.last] in *. destruct l; [reflexivity|]. apply IH.
Qed.

Lemma fold_longStep_keyName l : forall k0 kn,
  (fold_left longStep l (k0, kn)).2
  = List.last (List.filter (fun v => negb (isModWord v)) l) kn.
Proof.
  induction l as [|v l IH]; intros k0 kn; [reflexivity|].
  cbn [fold_left List.filter]. unfold longStep at 2, isModWord at 1.
  destruct (String.eqb v "win"); [apply IH|].
  destruct (String.eqb v "ctrl"); [apply IH|].
  destruct (String.eqb v "shift"); [apply IH|].
  destruct (String.eqb v "alt"); [apply IH|].
  cbn [orb negb]. rewrite last_cons. apply IH.
Qed.

(** X2.  The key name [getHkInfo] returns: in the long form the last token
    that is not one of [win], [ctrl], [shift], [alt] (the empty string when
    there is none), wherever it stands among the modifiers; in the short
    form the second token, whatever it is. *)
Theorem getHkInfo_keyName splitStr hkStr signalStr :
  (List.length (Split hkStr splitStr) <> 2%nat ->
   keyNameOf (getHkInfo splitStr hkStr signalStr)
   = List.last
       (List.filter (fun v => negb (isModWord v)) (Split hkStr splitStr)) "")
  /\
  (forall m k,
     Split hkStr splitStr = [m; k] ->
     keyNameOf (getHkInfo splitStr hkStr signalStr) = k).
Proof.
  split.
  - intros N2. unfold getHkInfo.
    destruct (Split hkStr splitStr) as [|x l] eqn:E; [reflexivity|].
    cbn [List.length Nat.eqb].
    destruct (Nat.eqb_spec (List.length l) 1) as [E1|_];
      [cbn [List.length] in N2; congruence|].
    pose proof (fold_longStep_keyName (x :: l) k0_init "") as H.
    destruct (fold_left longStep (x :: l) (k0_init, "")) as [k0 kn].
    exact H.
  - intros m k E. unfold getHkInfo. rewrite E. reflexivity.
Qed.

End NormalisationMore.

(** ** The keys of the registry *)

Section Identities.

Context {OS : Type}.

Lemma memb_spec x l : memb x l = true <-> x ∈ l.
Proof.
  induction l as [|y l IH]; cbn.
  - split; [discriminate | intros H; inversion H].
  - destruct (String.eqb_spec x y) as [->|N].
    + split; [intros _; left | reflexivity].
    + rewrite IH. split; [intros H; right; exact H|].
      intros H; inversion H; subst; [contradiction | assumption].
Qed.

Lemma nodupb_sound l : nodupb l = true -> NoDup l.
Proof.
  induction l as [|x l IH]; cbn; [constructor|].
  destruct (memb x l) eqn:E; [discriminate|].
  intros H. constructor; [|auto].
  rewrite <- memb_spec, E. discriminate.
Qed.

Lemma NoDup_glue : NoDup (glue <$> validTriples).
Proof. apply nodupb_sound. vm_compute. reflexivity. Qed.

Lemma glue_inj i i' :
  i ∈ validTriples -> i' ∈ validTriples -> glue i = glue i' -> i = i'.
Proof.
  intros [n Hn]%list_elem_of_lookup [n' Hn']%list_elem_of_lookup Hg.
  assert (n = n') as <-.
  { apply (NoDup_lookup _ _ _ (glue i) NoDup_glue);
      rewrite list_lookup_fmap; [rewrite Hn | rewrite Hn', Hg]; reflexivity. }
  congruence.
Qed.

Lemma bool_in_both (b : bool) : b ∈ [false; true].
Proof. destruct b; repeat constructor. Qed.

Lemma normSignal_in signalStr : normSignal signalStr ∈ ["down"; "up"; "press"].
Proof.
  unfold normSignal.
  destruct (String.eqb_spec signalStr "up") as [->|_];
    [cbn; repeat constructor|].
  destruct (String.eqb_spec signalStr "press") as [->|_];
    cbn; repeat constructor.
Qed.

Lemma validTriples_intro w c s a kn sg code :
  keyCodeWin !! kn = Some code ->
  sg ∈ ["down"; "up"; "press"] ->
  (canon w c s a, kn, sg) ∈ validTriples.
Proof.
  intros Hkn Hsg. unfold validTriples.
  apply list_elem_of_bind. exists w. split; [|apply bool_in_both].
  apply list_elem_of_bind. exists c. split; [|apply bool_in_both].
  apply list_elem_of_bind. exists s. split; [|apply bool_in_both].
  apply list_elem_of_bind. exists a. split; [|apply bool_in_both].
  apply list_elem_of_bind. exists kn. split.
  - apply list_elem_of_bind. exists sg. split; [|exact Hsg].
    now apply list_elem_of_singleton.
  - apply list_elem_of_fmap. exists (kn, code). split; [reflexivity|].
    now apply elem_of_map_to_list.
Qed.

Lemma getHkInfo_valid splitStr hkStr signalStr :
  is_Some (keyCodeWin !! keyNameOf (getHkInfo splitStr hkStr signalStr)) ->
  getHkInfo splitStr hkStr signalStr ∈ validTriples.
Proof.
  intros [code Hcode].
  destruct (modifierSort_canon splitStr hkStr signalStr) as (w & c & s & a & Hm).
  assert (Hsg : signalOf (getHkInfo splitStr hkStr signalStr)
                = normSignal signalStr).
  { unfold getHkInfo in *.
    destruct (Split hkStr splitStr) as [|x l]; [discriminate Hcode|].
    cbn [List.length Nat.eqb] in *.
    match goal with
    | |- signalOf (let '(_, _) := ?p in _) = _ => now destruct p
    end. }
  destruct (getHkInfo splitStr hkStr signalStr) as [[ms kn] sg].
  cbn [modifierSortOf keyNameOf signalOf fst snd] in *. subst ms sg.
  eapply validTriples_intro; [exact Hcode | apply normSignal_in].
Qed.

(** X3.  The registry key [modifierSort+keyName+signal] tells apart the
    hotkeys [Register] accepts: two inputs whose key names are in the table
    are filed under the same key only if [getHkInfo] gives the same
    modifiers, the same key name and the same signal for both. *)
Theorem identity_injective (w : @World OS) modifier key modifier' key' :
  is_Some (keyCodeWin !! keyNameOf (getHkInfo (splitStr w) modifier key)) ->
  is_Some (keyCodeWin !! keyNameOf (getHkInfo (splitStr w) modifier' key')) ->
  identity w modifier key = identity w modifier' key' ->
  getHkInfo (splitStr w) modifier key = getHkInfo (splitStr w) modifier' key'.
Proof.
  intros Hk Hk' Hid.
  apply glue_inj; [now apply getHkInfo_valid..|].
  unfold identity, glue in *.
  destruct (getHkInfo (splitStr w) modifier key) as [[ms kn] sg].
  destruct (getHkInfo (splitStr w) modifier' key') as [[ms' kn'] sg'].
  exact Hid.
Qed.

End Identities.

(** ** The method [String] *)

Section StringFacts.

Lemma String_mod_canon w c s a :
  fold_left String_mod (getModifier (canon w c s a)) (replicate 6 "")
  = [ if w then "win" else ""; if c then "ctrl" else "";
      if s then "shift" else ""; if a then "alt" else ""; ""; "" ].
Proof. destruct w, c, s, a; vm_compute; reflexivity. Qed.

(** Apart from Escape, which the table lists as [escape] and as [esc], no
    key has two names. *)
Lemma keyCodeWin_names k k' code :
  keyCodeWin !! k = Some code -> keyCodeWin !! k' = Some code ->
  code <> 0x1B -> k = k'.
Proof.
  intros H H' Hesc.
  apply elem_of_map_to_list, list_elem_of_In in H, H'.
  assert (Hall :
    forallb (fun x : string * Key =>
      forallb (fun y : string * Key =>
        implb ((x.2 =? y.2) && negb (x.2 =? 0x1B)) (String.eqb x.1 y.1))
        (map_to_list keyCodeWin)) (map_to_list keyCodeWin) = true)
    by (vm_compute; reflexivity).
  rewrite forallb_forall in Hall. specialize (Hall _ H).
  rewrite forallb_forall in Hall. specialize (Hall _ H').
  cbn [fst snd] in Hall. rewrite Z.eqb_refl in Hall.
  destruct (Z.eqb_spec code 0x1B); [contradiction|].
  clear H H'. apply String.eqb_eq. exact Hall.
Qed.

Lemma find_key order code :
  order ≡ₚ map_to_list keyCodeWin ->
  match List.find (fun kv : string * Key => kv.2 =? code) order with
  | Some kv => keyCodeWin !! kv.1 = Some code
  | None => forall k, keyCodeWin !! k <> Some code
  end.
Proof.
  intros Hperm.
  destruct (List.find _ order) as [kv|] eqn:Hfind.
  - apply find_some in Hfind as [Hin Heq].
    apply Z.eqb_eq in Heq. rewrite <- Heq.
    apply elem_of_map_to_list. rewrite <- Hperm.
    apply list_elem_of_In. destruct kv. exact Hin.
  - intros k Hk.
    apply elem_of_map_to_list in Hk. rewrite <- Hperm in Hk.
    apply list_elem_of_In in Hk.
    pose proof (find_none _ _ Hfind _ Hk) as Hno. cbn [snd] in Hno.
    rewrite Z.eqb_refl in Hno. discriminate Hno.
Qed.

(** X4.  What [String] returns for a hotkey made by [Register], in
    whatever order the loop meets the entries of [keyCodeWin]: six fields
    joined by single spaces, a modifier that is absent leaving its field
    empty, then the name the hotkey was registered under and its signal.
    Only for Escape does the order matter: the name is [esc] or [escape]. *)
Theorem String_registered order w c s a kn code sg callbacks p :
  order ≡ₚ map_to_list keyCodeWin ->
  keyCodeWin !! kn = Some code ->
  let hk := mkHotkey p sg callbacks (getModifier (canon w c s a)) code in
  let line name :=
    Join [ if w then "win" else ""; if c then "ctrl" else "";
           if s then "shift" else ""; if a then "alt" else ""; name; sg ]
         " " in
  (code <> 0x1B -> String_ order hk = line kn) /\
  (code = 0x1B ->
   String_ order hk = line "esc" \/ String_ order hk = line "escape").
Proof.
  intros Hperm Hkn hk line.
  assert (Hshape : exists name,
             keyCodeWin !! name = Some code /\ String_ order hk = line name).
  { unfold String_. cbn [mods key Signal hk]. rewrite String_mod_canon.
    pose proof (find_key order code Hperm) as Hfind.
    unfold Key in Hfind |- *.
    destruct (List.find (fun kv : string * Z => kv.2 =? code) order)
      as [kv|].
    - exists kv.1. split; [exact Hfind | reflexivity].
    - destruct (Hfind kn Hkn). }
  destruct Hshape as (name & Hname & ->). split.
  - intros Hesc. rewrite (keyCodeWin_names _ _ _ Hname Hkn Hesc). reflexivity.
  - intros ->.
    assert (Hesc : forallb (fun x : string * Key =>
                     implb (x.2 =? 0x1B)
                           (String.eqb x.1 "esc" || String.eqb x.1 "escape"))
                     (map_to_list keyCodeWin) = true)
      by (vm_compute; reflexivity).
    rewrite forallb_forall in Hesc.
    apply elem_of_map_to_list, list_elem_of_In in Hname.
    specialize (Hesc _ Hname). cbn [fst snd] in Hesc.
    rewrite Z.eqb_refl in Hesc. cbn [implb] in Hesc. clear Hname Hkn.
    destruct (String.eqb_spec name "esc") as [E|_];
      [left; rewrite E; reflexivity|].
    destruct (String.eqb_spec name "escape") as [E|_];
      [right; rewrite E; reflexivity | discriminate Hesc].
Qed.

End StringFacts.

(** ** Calls of the interface *)

Section EngineMore.

Context {OS : Type}.
Variable RegisterHotKey : Z -> Z -> Z -> Z -> OS -> bool * option error * OS.
Variable UnregisterHotKey : Z -> Z -> OS -> bool * option error * OS.
Variable hkString : Hotkey -> string.

Local Abbreviation handleIter :=
  (handleIter RegisterHotKey UnregisterHotKey hkString).
Local Abbreviation register :=
  (register RegisterHotKey UnregisterHotKey hkString).
Local Abbreviation unregister :=
  (unregister RegisterHotKey UnregisterHotKey hkString).
Local Abbreviation Register :=
  (Register RegisterHotKey UnregisterHotKey hkString).
Local Abbreviation Unregister :=
  (Unregister RegisterHotKey UnregisterHotKey hkString).
Local Abbreviation pollStep := (pollStep hkString).
Local Abbreviation step := (step RegisterHotKey UnregisterHotKey hkString).
Local Abbreviation run := (run RegisterHotKey UnregisterHotKey hkString).
Local Abbreviation perform :=
  (perform RegisterHotKey UnregisterHotKey hkString).
Local Abbreviation program :=
  (program RegisterHotKey UnregisterHotKey hkString).
Local Abbreviation World := (@World OS).
Local Abbreviation registered_world := (registered_world RegisterHotKey).
Local Abbreviation unregistered_world :=
  (unregistered_world UnregisterHotKey).

(** The identifier [register] draws, the mask and the key code it passes
    to the operating system for the input [modifier], [key]. *)
Local Abbreviation nextId w := ((hotkeyIdVar w + 1) mod 2 ^ 64).
Local Abbreviation maskOf w modifier key :=
  (modBits
     (getModifier (modifierSortOf (getHkInfo (splitStr w) modifier key)))).

Lemma Register_unknown_key modifier key callbacks (w : World) :
  keyCodeWin !! keyNameOf (getHkInfo (splitStr w) modifier key) = None ->
  Register modifier key callbacks w = Some (Some errKey, w).
Proof.
  intros Hkey. unfold hotkey.Register.
  destruct (getHkInfo (splitStr w) modifier key) as [[ms kn] sg].
  cbn [keyNameOf fst snd] in Hkey. now rewrite Hkey.
Qed.

(** X5.  [Register] always returns.  When the key name [getHkInfo] finds
    is not in the table [keyCodeWin], the error is "key error" and nothing
    has happened: no handle, no entry, no identifier drawn, no call of the
    operating system. *)
Theorem Register_returns modifier key callbacks (w : World) :
  exists e w',
    Register modifier key callbacks w = Some (e, w') /\
    (keyCodeWin !! keyNameOf (getHkInfo (splitStr w) modifier key) = None ->
     e = Some errKey /\ w' = w).
Proof.
  destruct (keyCodeWin !! keyNameOf (getHkInfo (splitStr w) modifier key))
    as [keyCode|] eqn:Hkey.
  - do 2 eexists. split; [|discriminate].
    exact (Register_known_key RegisterHotKey UnregisterHotKey hkString modifier key callbacks keyCode w Hkey).
  - exists (Some errKey), w. split; [|auto].
    now apply Register_unknown_key.
Qed.

(** X6.  When the operating system accepts, [Register] returns [nil]
    (whatever error value came with the answer) and the hotkey can be
    looked up: the registry maps the identity to the new handle, which is
    registered under the identifier just drawn, carries the normalised
    signal, the callbacks, the modifiers and the key code, and has a worker
    at rest. *)
Theorem Register_accepted modifier key callbacks keyCode err o (w : World) :
  keyCodeWin !! keyNameOf (getHkInfo (splitStr w) modifier key)
  = Some keyCode ->
  RegisterHotKey 0 (nextId w) (maskOf w modifier key) keyCode (os w)
  = (true, err, o) ->
  exists w',
    Register modifier key callbacks w = Some (None, w') /\
    registeredHotkey w' !! identity w modifier key
    = Some (fresh (dom (heap w))) /\
    heap w' !! fresh (dom (heap w))
    = Some (mkHotkey (mkPlatformHotkey (nextId w) true false)
              (signalOf (getHkInfo (splitStr w) modifier key)) callbacks
              (getModifier
                 (modifierSortOf (getHkInfo (splitStr w) modifier key)))
              keyCode) /\
    workers w' !! fresh (dom (heap w)) = Some newWorker /\
    hotkeyIdVar w' = nextId w /\ os w' = o.
Proof.
  intros Hkey Hos.
  pose proof (Register_known_key RegisterHotKey UnregisterHotKey hkString modifier key callbacks keyCode w Hkey)
    as H.
  cbv zeta in H. rewrite Hos in H. eexists. split; [exact H|].
  unfold hotkey.registered_world.
  cbn [os hotkeyIdVar set_registeredHotkey set_heap mods hotkey.key].
  rewrite Hos. cbn. rewrite !lookup_insert_eq. auto.
Qed.

Lemma Unregister_entry c modifier key a hk wk (w : World) :
  registeredHotkey w !! identity w modifier key = Some a ->
  heap w !! a = Some hk ->
  registered (platform hk) = true ->
  workers w !! a = Some wk ->
  running wk = true ->
  c <> onWorker a ->
  Unregister c modifier key w =
  Some (None,
        set_registeredHotkey
          (delete (identity w modifier key) (registeredHotkey w))
          (unregistered_world a hk w)).
Proof.
  unfold hotkey.Unregister, identity.
  destruct (getHkInfo (splitStr w) modifier key) as [[ms kn] sg].
  intros Hk Hhk Hreg Hwk Hrun Hc%own_false.
  rewrite Hk, (unregister_registered RegisterHotKey UnregisterHotKey hkString
                 _ _ _ _ _ Hhk Hreg Hwk Hrun Hc).
  unfold hotkey.unregistered_world.
  destruct (UnregisterHotKey 0 _ _) as [[ok err] o]. reflexivity.
Qed.

(** X7.  Round trip.  [Register] of an identity that has no entry,
    accepted by the operating system, followed by [Unregister] of the same
    identity, called from any goroutine that was there before the
    registration: both return [nil], the registry is what it was before, the
    handle is left unregistered with its cancellation channel closed, and
    the operating system has been asked to release the identifier that
    was registered.  A later [Register] starts from a new handle and the
    next identifier. *)
Theorem Register_Unregister c modifier key callbacks keyCode err o
    (w : World) :
  known c w ->
  registeredHotkey w !! identity w modifier key = None ->
  keyCodeWin !! keyNameOf (getHkInfo (splitStr w) modifier key)
  = Some keyCode ->
  RegisterHotKey 0 (nextId w) (maskOf w modifier key) keyCode (os w)
  = (true, err, o) ->
  exists w1 w2 hk,
    Register modifier key callbacks w = Some (None, w1) /\
    Unregister c modifier key w1 = Some (None, w2) /\
    registeredHotkey w2 = registeredHotkey w /\
    heap w2 !! fresh (dom (heap w)) = Some hk /\
    registered (platform hk) = false /\
    canceled (platform hk) = true /\
    os w2 = (UnregisterHotKey 0 (nextId w) o).2 /\
    fresh (dom (heap w2)) <> fresh (dom (heap w)) /\
    nextId w2 = (nextId w + 1) mod 2 ^ 64.
Proof.
  intros Hc Hnone Hkey Hos.
  assert (Hca : c <> onWorker (fresh (dom (heap w)))).
  { intros ->. exact (is_fresh (dom (heap w)) Hc). }
  pose proof (Register_known_key RegisterHotKey UnregisterHotKey hkString
                modifier key callbacks keyCode w Hkey) as HR.
  cbv zeta in HR. rewrite Hos in HR. cbn [fst snd] in HR.
  unfold hotkey.registered_world in HR.
  cbn [os hotkeyIdVar set_registeredHotkey set_heap mods hotkey.key] in HR.
  rewrite Hos in HR.
  cbn [splitStr registeredHotkey heap workers trace set_registeredHotkey
       set_heap negb] in HR.
  rewrite insert_insert_eq in HR.
  set (a := fresh (dom (heap w))) in *.
  set (hk0 := mkHotkey _ _ callbacks _ keyCode) in HR.
  set (k := identity w modifier key) in *.
  match type of HR with _ = Some (None, ?W) => set (w1 := W) in * end.
  assert (Hident : identity w1 modifier key = k) by reflexivity.
  assert (Hentry : registeredHotkey w1 !! identity w1 modifier key = Some a)
    by (rewrite Hident; apply lookup_insert_eq).
  assert (Hhk : heap w1 !! a
                = Some (set_platform (mkPlatformHotkey (nextId w) true false)
                          hk0)) by apply lookup_insert_eq.
  assert (Hwk : workers w1 !! a = Some newWorker) by apply lookup_insert_eq.
  pose proof (Unregister_entry c modifier key _ _ _ w1 Hentry Hhk eq_refl Hwk
                eq_refl Hca) as HU.
  do 3 eexists. split; [exact HR|]. split; [exact HU|].
  unfold hotkey.unregistered_world. cbn [hotkeyId platform set_platform os w1].
  destruct (UnregisterHotKey 0 (nextId w) o) as [[ok' err'] o'].
  cbn [registeredHotkey set_registeredHotkey heap os hotkeyIdVar snd].
  rewrite lookup_insert_eq, Hident.
  change (registeredHotkey w1) with (<[k := a]> (registeredHotkey w)).
  rewrite (delete_insert_id _ _ _ Hnone).
  repeat split.
  intros E.
  match type of E with
  | fresh (dom ?h) = _ => pose proof (is_fresh (dom h)) as Hf
  end.
  rewrite E in Hf. apply Hf, elem_of_dom. rewrite lookup_insert_eq. eauto.
Qed.

(** X8.  [Register] touches nothing but its own hotkey: whatever it
    returns, the separator and the trace are as before (it runs no
    callback), the entries of all other identities are as before, and so are
    all handles and workers that existed. *)
Theorem Register_frame modifier key callbacks e (w w' : World) :
  Register modifier key callbacks w = Some (e, w') ->
  splitStr w' = splitStr w /\ trace w' = trace w /\
  (forall k', k' <> identity w modifier key ->
     registeredHotkey w' !! k' = registeredHotkey w !! k') /\
  (forall a', a' ∈ dom (heap w) ->
     heap w' !! a' = heap w !! a' /\ workers w' !! a' = workers w !! a').
Proof.
  intros HR.
  destruct (keyCodeWin !! keyNameOf (getHkInfo (splitStr w) modifier key))
    as [keyCode|] eqn:Hkey.
  - rewrite (Register_known_key RegisterHotKey UnregisterHotKey hkString
               _ _ _ _ _ Hkey) in HR.
    injection HR as _ <-. unfold hotkey.registered_world.
    destruct (RegisterHotKey 0 _ _ _ _) as [[ok err] o].
    cbn [splitStr trace registeredHotkey heap workers set_registeredHotkey
         set_heap].
    repeat split.
    + intros k' Hk'. now rewrite lookup_insert_ne.
    + rewrite !lookup_insert_ne; [reflexivity|..];
        intros <-; now apply (is_fresh (dom (heap w))).
    + rewrite lookup_insert_ne; [reflexivity|].
      intros <-; now apply (is_fresh (dom (heap w))).
  - rewrite (Register_unknown_key _ _ _ _ Hkey) in HR.
    injection HR as _ <-. auto.
Qed.

(** X9.  [Unregister] touches nothing but its own hotkey: whoever calls
    and whatever it returns, the separator, the trace (it runs no callback), the workers
    and the identifier counter are as before, and so are the entries of all
    other identities and all handles but the one filed under the
    identity. *)
Theorem Unregister_frame c modifier key e (w w' : World) :
  Unregister c modifier key w = Some (e, w') ->
  splitStr w' = splitStr w /\ trace w' = trace w /\
  workers w' = workers w /\ hotkeyIdVar w' = hotkeyIdVar w /\
  (forall k', k' <> identity w modifier key ->
     registeredHotkey w' !! k' = registeredHotkey w !! k') /\
  (forall a', registeredHotkey w !! identity w modifier key <> Some a' ->
     heap w' !! a' = heap w !! a').
Proof.
  unfold hotkey.Unregister, identity.
  destruct (getHkInfo (splitStr w) modifier key) as [[ms kn] sg].
  destruct (registeredHotkey w !! (ms +:+ kn +:+ sg)) as [a|] eqn:Hk.
  - destruct (unregister c a w) as [[[e'|] w1]|] eqn:Hu; try discriminate.
    + intros [= _ <-].
      apply unregister_error in Hu as (_ & -> & _). auto 10.
    + intros [= _ <-].
      apply unregister_inv in Hu as (hk & Hhk & ->).
      unfold hotkey.unregistered_world.
      destruct (UnregisterHotKey 0 _ _) as [[ok err] o].
      cbn [splitStr trace registeredHotkey heap workers hotkeyIdVar
           set_registeredHotkey].
      repeat split.
      * intros k' Hk'. now rewrite lookup_delete_ne.
      * intros a' Ha'. rewrite lookup_insert_ne; congruence.
  - intros [= _ <-]. auto 10.
Qed.


(** X11.  After a registration the operating system has refused, the
    worker started for it leaves its loop on its first tick without a
    pending message, and nothing has been called or printed. *)
Theorem refused_worker_leaves modifier key callbacks keyCode err o t
    (w : World) :
  keyCodeWin !! keyNameOf (getHkInfo (splitStr w) modifier key)
  = Some keyCode ->
  RegisterHotKey 0 (nextId w) (maskOf w modifier key) keyCode (os w)
  = (false, err, o) ->
  peek t = false ->
  exists w',
    Register modifier key callbacks w = Some (err, w') /\
    handleIter (fresh (dom (heap w))) None t w'
    = Some (stopWorker (fresh (dom (heap w))) w', returned exitCanceled) /\
    trace (stopWorker (fresh (dom (heap w))) w') = trace w.
Proof.
  intros Hkey Hos Hpeek.
  pose proof (Register_known_key RegisterHotKey UnregisterHotKey hkString
                modifier key callbacks keyCode w Hkey) as HR.
  cbv zeta in HR. rewrite Hos in HR. cbn [fst snd] in HR.
  eexists. split; [exact HR|].
  unfold hotkey.registered_world.
  cbn [os hotkeyIdVar set_registeredHotkey set_heap mods hotkey.key].
  rewrite Hos. split; [|reflexivity].
  unfold hotkey.handleIter. cbn [heap workers].
  rewrite !lookup_insert_eq. cbn. now rewrite Hpeek.
Qed.

(** ** Invariants *)

(** The worlds [Register] and [Unregister] can leave behind. *)
Lemma Register_cases modifier key callbacks e (w w' : World) :
  Register modifier key callbacks w = Some (e, w') ->
  w' = w \/
  exists hk o,
    heap w !! fresh (dom (heap w)) = None /\
    hotkeyId (platform hk) = nextId w /\
    (registered (platform hk) = true -> canceled (platform hk) = false) /\
    w' = mkWorld (splitStr w)
           (<[identity w modifier key := fresh (dom (heap w))]>
              (registeredHotkey w))
           (<[fresh (dom (heap w)) := hk]> (heap w))
           (<[fresh (dom (heap w)) := newWorker]> (workers w))
           (nextId w) o (trace w).
Proof.
  intros HR.
  destruct (keyCodeWin !! keyNameOf (getHkInfo (splitStr w) modifier key))
    as [keyCode|] eqn:Hkey.
  - right.
    rewrite (Register_known_key RegisterHotKey UnregisterHotKey hkString
               _ _ _ _ _ Hkey) in HR.
    injection HR as _ <-. unfold hotkey.registered_world.
    destruct (RegisterHotKey 0 _ _ _ _) as [[ok err] o].
    cbn [splitStr trace registeredHotkey heap workers set_registeredHotkey
         set_heap os hotkeyIdVar].
    rewrite insert_insert_eq. do 2 eexists.
    split; [apply not_elem_of_dom, is_fresh|].
    split; [|split; [|reflexivity]]; cbn; [reflexivity|].
    now intros ->.
  - left. rewrite (Register_unknown_key _ _ _ _ Hkey) in HR.
    now injection HR as _ <-.
Qed.

Lemma Unregister_cases c modifier key e (w w' : World) :
  Unregister c modifier key w = Some (e, w') ->
  w' = w \/
  exists a hk o,
    registeredHotkey w !! identity w modifier key = Some a /\
    heap w !! a = Some hk /\
    w' = mkWorld (splitStr w)
           (delete (identity w modifier key) (registeredHotkey w))
           (<[a := set_platform
                     (mkPlatformHotkey (hotkeyId (platform hk)) false true)
                     hk]> (heap w))
           (workers w) (hotkeyIdVar w) o (trace w).
Proof.
  unfold hotkey.Unregister, identity.
  destruct (getHkInfo (splitStr w) modifier key) as [[ms kn] sg].
  destruct (registeredHotkey w !! (ms +:+ kn +:+ sg)) as [a|] eqn:Hk.
  - destruct (unregister c a w) as [[[e'|] w1]|] eqn:Hu; try discriminate.
    + intros [= _ <-]. left.
      now apply unregister_error in Hu as (_ & -> & _).
    + intros [= _ <-]. right.
      apply unregister_inv in Hu as (hk & Hhk & ->).
      unfold hotkey.unregistered_world.
      destruct (UnregisterHotKey 0 _ _) as [[ok err] o].
      exists a, hk, o. auto.
  - intros [= _ <-]. now left.
Qed.

Lemma step_frame act (w : World) :
  splitStr (step w act) = splitStr w /\
  registeredHotkey (step w act) = registeredHotkey w /\
  heap (step w act) = heap w /\
  hotkeyIdVar (step w act) = hotkeyIdVar w /\
  os (step w act) = os w /\
  dom (workers (step w act)) = dom (workers w).
Proof.
  destruct act as [a t|a j state|a j state]; cbn [hotkey.step].
  - unfold hotkey.handleIter.
    destruct (heap w !! a) as [hk|]; [|auto 10].
    destruct (workers w !! a) as [wk|] eqn:Hwk; [|auto 10].
    assert (Hin : a ∈ dom (workers w)) by (apply elem_of_dom; eauto).
    assert (Hstop : dom (workers (stopWorker a w)) = dom (workers w))
      by (cbn; apply dom_alter_L).
    assert (Hins : forall wk', dom (<[a := wk']> (workers w)) = dom (workers w))
      by (intros wk'; rewrite dom_insert_L; set_solver).
    destruct (running wk); [|auto 10]. cbn [negb].
    destruct (peek t); cbn [negb].
    + destruct (got t); cbn [negb]; [|repeat split; exact Hstop].
      destruct (message t =? wmHotkey).
      * destruct (onHotkey hkString hk wk) as [wk' evs].
        repeat split. apply Hins.
      * destruct (message t =? wmQuit); repeat split. exact Hstop.
    + destruct (canceled (platform hk)); repeat split. exact Hstop.
  - unfold hotkey.pollStep.
    destruct (heap w !! a) as [hk|]; [|auto 10].
    destruct (workers w !! a) as [wk|] eqn:Hwk; [|auto 10].
    destruct (pollers wk !! j) as [p|]; [|auto 10].
    destruct (pollIter hkString hk p state wk) as [[wk' evs] fin].
    repeat split. cbn. rewrite dom_insert_L.
    assert (a ∈ dom (workers w)) by (apply elem_of_dom; eauto). set_solver.
  - unfold hotkey.moveStep.
    destruct (heap w !! a) as [hk|]; [|auto 10].
    destruct (workers w !! a) as [wk|] eqn:Hwk; [|auto 10].
    destruct (pollers wk !! j) as [p|]; [|auto 10].
    destruct (pollMove hkString hk p state wk) as [[wk' evs] next].
    repeat split. cbn. rewrite dom_insert_L.
    assert (a ∈ dom (workers w)) by (apply elem_of_dom; eauto). set_solver.
Qed.

Lemma program_invariant (I : World -> Prop) :
  (forall w c, I w -> I (perform w c)) ->
  forall calls w, I w -> I (program calls w).
Proof.
  intros Hstep calls. induction calls as [|c calls IH]; intros w Hw;
    [exact Hw|].
  apply IH, Hstep, Hw.
Qed.

(** X12.  Throughout a program, handles and workers are allocated
    together and every entry of the registry points at an allocated handle:
    [Unregister] never finds a dangling entry. *)
Theorem program_registry_wf calls (w : World) :
  registry_wf w -> registry_wf (program calls w).
Proof.
  apply program_invariant. clear. intros w c [Hdom Hreg].
  destruct c as [m k cbs|m k|str|act]; cbn [hotkey.perform].
  - destruct (Register m k cbs w) as [[e w']|] eqn:HR; [|now split].
    apply Register_cases in HR as [->|(hk & o & _ & _ & _ & ->)];
      [now split|].
    split; cbn.
    + rewrite !dom_insert_L. now rewrite Hdom.
    + intros k' a'. rewrite dom_insert_L, lookup_insert.
      case_decide; [intros [= <-]; set_solver|].
      intros H'. apply Hreg in H'. set_solver.
  - destruct (Unregister elsewhere m k w) as [[e w']|] eqn:HU; [|now split].
    apply Unregister_cases in HU as [->|(a & hk & o & Hk & Hhk & ->)];
      [now split|].
    assert (a ∈ dom (heap w)) by (apply elem_of_dom; eauto).
    split; cbn.
    + rewrite dom_insert_L. set_solver.
    + intros k' a' H'. rewrite dom_insert_L.
      apply lookup_delete_Some in H' as [_ H']. apply Hreg in H'. set_solver.
  - now split.
  - destruct (step_frame act w) as (_ & Hr & Hh & _ & _ & Hw).
    split; [now rewrite Hw, Hh|]. intros k' a'. rewrite Hr, Hh. apply Hreg.
Qed.

(** X13.  Throughout a program, a handle that is registered has its
    cancellation channel open: the channel is closed only by the unregister
    closure and by a refused registration, and both leave the handle
    unregistered. *)
Theorem program_channels_ok calls (w : World) :
  channels_ok w -> channels_ok (program calls w).
Proof.
  apply program_invariant. clear. intros w c Hw.
  destruct c as [m k cbs|m k|str|act]; cbn [hotkey.perform].
  - destruct (Register m k cbs w) as [[e w']|] eqn:HR; [|exact Hw].
    apply Register_cases in HR as [->|(hk & o & _ & _ & Hopen & ->)];
      [exact Hw|].
    intros a' hk'. cbn [heap]. rewrite lookup_insert.
    case_decide; [intros [= <-]; exact Hopen | apply Hw].
  - destruct (Unregister elsewhere m k w) as [[e w']|] eqn:HU; [|exact Hw].
    apply Unregister_cases in HU as [->|(a & hk & o & Hk & Hhk & ->)];
      [exact Hw|].
    intros a' hk'. cbn [heap]. rewrite lookup_insert.
    case_decide; [intros [= <-]; discriminate | apply Hw].
  - exact Hw.
  - destruct (step_frame act w) as (_ & _ & Hh & _).
    intros a' hk'. rewrite Hh. apply Hw.
Qed.

Lemma perform_ids_ok c (w : World) :
  ids_ok w -> hotkeyIdVar w + 1 < 2 ^ 64 ->
  ids_ok (perform w c) /\ hotkeyIdVar (perform w c) <= hotkeyIdVar w + 1.
Proof.
  intros (H0 & Hrange & Huniq) Hbound.
  assert (Hsame : ids_ok w /\ hotkeyIdVar w <= hotkeyIdVar w + 1)
    by (split; [exact (conj H0 (conj Hrange Huniq)) | lia]).
  destruct c as [m k cbs|m k|str|act]; cbn [hotkey.perform].
  - destruct (Register m k cbs w) as [[e w']|] eqn:HR; [|exact Hsame].
    apply Register_cases in HR as [->|(hk & o & Hfresh & Hid & _ & ->)];
      [exact Hsame|].
    rewrite Z.mod_small in * by lia.
    split; [|cbn; lia]. unfold ids_ok. cbn [hotkeyIdVar heap].
    split; [lia|]. split.
    + intros a h. rewrite lookup_insert. case_decide.
      * intros [= <-]. lia.
      * intros H'. apply Hrange in H'. lia.
    + intros a a' h h'. rewrite !lookup_insert.
      repeat case_decide; try congruence.
      * intros [= <-] H' E. apply Hrange in H'. lia.
      * intros H' [= <-] E. apply Hrange in H'. lia.
      * apply Huniq.
  - destruct (Unregister elsewhere m k w) as [[e w']|] eqn:HU; [|exact Hsame].
    apply Unregister_cases in HU as [->|(a & hk & o & Hk & Hhk & ->)];
      [exact Hsame|].
    split; [|cbn; lia]. unfold ids_ok. cbn [hotkeyIdVar heap].
    split; [exact H0|]. split.
    + intros a' h. rewrite lookup_insert. case_decide.
      * intros [= <-]. cbn. now apply Hrange in Hhk.
      * apply Hrange.
    + intros a1 a2 h1 h2. rewrite !lookup_insert.
      repeat case_decide; try congruence.
      * intros [= <-] Hl2 E. cbn in E. subst.
        exact (Huniq _ _ _ _ Hhk Hl2 E).
      * intros Hl1 [= <-] E. cbn in E. subst.
        exact (Huniq _ _ _ _ Hl1 Hhk E).
      * apply Huniq.
  - exact Hsame.
  - destruct (step_frame act w) as (_ & _ & Hh & Hv & _).
    rewrite Hv. split; [|lia]. unfold ids_ok. rewrite Hh, Hv. auto.
Qed.

(** X14.  As long as the counter [hotkeyId] does not wrap round, the
    identifiers of the handles are all different: each was drawn from the
    counter when its handle was registered, also when the registration was
    refused, and [Unregister] hands the operating system the identifier of
    its own hotkey and of no other. *)
Theorem program_ids_ok calls : forall w : World,
  ids_ok w ->
  hotkeyIdVar w + Z.of_nat (List.length calls) < 2 ^ 64 ->
  ids_ok (program calls w).
Proof.
  induction calls as [|c calls IH]; intros w Hw Hbound; [exact Hw|].
  cbn [List.length] in Hbound. cbn [hotkey.program fold_left].
  destruct (perform_ids_ok c w Hw) as [Hw' Hv]; [lia|].
  apply IH; [exact Hw' | lia].
Qed.

(** ** The pollers of a worker *)

Lemma countPoller_snoc p q ps :
  countPoller p (ps ++ [q])
  = (countPoller p ps + (if samePoller p q then 1 else 0))%nat.
Proof.
  unfold countPoller. rewrite List.filter_app, length_app. cbn.
  now destruct (samePoller p q).
Qed.

Lemma countPoller_delete p q : forall j ps,
  ps !! j = Some q ->
  countPoller p ps
  = (countPoller p (delete j ps) + (if samePoller p q then 1 else 0))%nat.
Proof.
  unfold countPoller. intros j ps. revert j.
  induction ps as [|x ps IH]; intros [|j] Hj; try discriminate.
  - injection Hj as ->. change (delete 0%nat (q :: ps)) with ps.
    cbn [List.filter]. destruct (samePoller p q); cbn [List.length]; lia.
  - change (delete (S j) (x :: ps)) with (x :: delete j ps).
    change ((x :: ps) !! S j) with (ps !! j) in Hj.
    cbn [List.filter].
    destruct (samePoller p x); cbn [List.length]; rewrite (IH _ Hj); lia.
Qed.

Lemma countPoller_insert p q q' : forall j ps,
  ps !! j = Some q ->
  (countPoller p (<[j := q']> ps) + (if samePoller p q then 1 else 0)
   = countPoller p ps + (if samePoller p q' then 1 else 0))%nat.
Proof.
  unfold countPoller. intros j ps. revert j.
  induction ps as [|x ps IH]; intros [|j] Hj; try discriminate.
  - injection Hj as ->. change (<[0%nat := q']> (q :: ps)) with (q' :: ps).
    cbn [List.filter].
    destruct (samePoller p q), (samePoller p q'); cbn [List.length]; lia.
  - change (<[S j := q']> (x :: ps)) with (x :: <[j := q']> ps).
    change ((x :: ps) !! S j) with (ps !! j) in Hj.
    cbn [List.filter]. specialize (IH _ Hj).
    destruct (samePoller p x); cbn [List.length]; lia.
Qed.

(** What a move or the end of the poller at [j] does to the numbers of
    pollers, for every place a poller can stand at. *)
Ltac census Hj q :=
  let go c :=
    (pose proof (countPoller_delete c _ _ _ Hj);
     pose proof (countPoller_insert c _ q _ _ Hj)) in
  go pollDown; go pollUp; go pollDownReleased; go pollDownCalled;
  go pollUpCalled; cbn [samePoller] in *.

Ltac worker_ok_tac Hp :=
  split; [|split];
  [ lia
  | lia
  | try (intros Hkp;
         first [ discriminate Hkp
               | left; reflexivity
               | right; lia
               | destruct (Hp Hkp) as [Hl | Hr];
                 first [ discriminate Hl | left; exact Hl | right; lia ] ]) ].

Lemma onHotkey_ok hk wk : worker_ok wk -> worker_ok (onHotkey hkString hk wk).1.
Proof.
  intros Hok. pose proof Hok as (Hd & Hu & Hp). unfold onHotkey.
  destruct (String.eqb (Signal hk) "down" || String.eqb (Signal hk) "press").
  - destruct (keyDown wk) eqn:Ed; cbn [negb fst]; [exact Hok|].
    destruct (String.eqb (Signal hk) "press"); cbn [fst];
      unfold worker_ok; cbn [pollers keyDown keyUp keyPress];
      rewrite !countPoller_snoc; cbn [samePoller];
      destruct (keyUp wk), (keyPress wk); worker_ok_tac Hp.
  - destruct (String.eqb (Signal hk) "up"); [|exact Hok].
    destruct (keyUp wk) eqn:Eu; cbn [negb fst]; [exact Hok|].
    unfold worker_ok; cbn [pollers keyDown keyUp keyPress];
      rewrite !countPoller_snoc; cbn [samePoller];
      destruct (keyDown wk), (keyPress wk); worker_ok_tac Hp.
Qed.

Lemma pollIter_ok hk p state j wk :
  worker_ok wk -> pollers wk !! j = Some p ->
  worker_ok
    (if (pollIter hkString hk p state wk).2
     then dropPoller j (pollIter hkString hk p state wk).1.1
     else (pollIter hkString hk p state wk).1.1).
Proof.
  intros Hok Hj. pose proof Hok as (Hd & Hu & Hp). unfold pollIter.
  destruct (negb (state =? 0)); [exact Hok|].
  destruct p; cbn [fst snd]; try exact Hok.
  - census Hj pollDown.
    destruct (keyPress wk) eqn:Ep; cbn [fst snd];
      unfold worker_ok;
      cbn [dropPoller pollers keyDown keyUp keyPress running];
      destruct (keyDown wk), (keyUp wk); worker_ok_tac Hp.
  - census Hj pollUp.
    unfold worker_ok;
      cbn [dropPoller pollers keyDown keyUp keyPress running];
      destruct (keyDown wk), (keyUp wk), (keyPress wk); worker_ok_tac Hp.
Qed.

Lemma pollMove_ok hk p state j wk :
  worker_ok wk -> pollers wk !! j = Some p ->
  worker_ok
    (movePoller j (pollMove hkString hk p state wk).2
       (pollMove hkString hk p state wk).1.1).
Proof.
  intros Hok Hj. pose proof Hok as (Hd & Hu & Hp). unfold pollMove.
  destruct p.
  - destruct (negb (state =? 0)); cbn [fst snd];
      [census Hj pollDown | census Hj pollDownReleased];
      unfold worker_ok, movePoller;
      cbn [pollers keyDown keyUp keyPress running];
      destruct (keyDown wk), (keyUp wk), (keyPress wk); worker_ok_tac Hp.
  - destruct (negb (state =? 0)); cbn [fst snd];
      [census Hj pollUp | census Hj pollUpCalled];
      unfold worker_ok, movePoller;
      cbn [pollers keyDown keyUp keyPress running];
      destruct (keyDown wk), (keyUp wk), (keyPress wk); worker_ok_tac Hp.
  - destruct (keyPress wk) eqn:Ep; cbn [fst snd];
      [census Hj pollDownCalled | census Hj pollDown];
      unfold worker_ok, movePoller, dropPoller;
      cbn [pollers keyDown keyUp keyPress running]; rewrite ?Ep;
      destruct (keyDown wk), (keyUp wk); worker_ok_tac Hp.
  - cbn [fst snd]. census Hj pollDown.
    unfold worker_ok, movePoller, dropPoller;
      cbn [pollers keyDown keyUp keyPress running];
      destruct (keyDown wk), (keyUp wk), (keyPress wk); worker_ok_tac Hp.
  - cbn [fst snd]. census Hj pollDown.
    unfold worker_ok, movePoller, dropPoller;
      cbn [pollers keyDown keyUp keyPress running];
      destruct (keyDown wk), (keyUp wk), (keyPress wk); worker_ok_tac Hp.
Qed.

Lemma step_workers_ok act (w : World) : workers_ok w -> workers_ok (step w act).
Proof.
  intros Hw. destruct act as [a t|a j state|a j state]; cbn [hotkey.step].
  - unfold hotkey.handleIter.
    destruct (heap w !! a) as [hk|]; [|exact Hw].
    destruct (workers w !! a) as [wk|] eqn:Hwk; [|exact Hw].
    assert (Hstop : workers_ok (stopWorker a w)).
    { intros a' wk'. cbn. rewrite lookup_alter.
      case_decide; [subst a'; rewrite Hwk; intros [= <-];
                    exact (Hw _ _ Hwk) | apply Hw]. }
    destruct (running wk); [|exact Hw]. cbn [negb].
    destruct (peek t); cbn [negb].
    + destruct (got t); cbn [negb]; [|exact Hstop].
      destruct (message t =? wmHotkey).
      * pose proof (onHotkey_ok hk wk (Hw _ _ Hwk)) as Hok.
        destruct (onHotkey hkString hk wk) as [wk' evs].
        intros a' wk''. cbn. rewrite lookup_insert.
        case_decide; [intros [= <-]; exact Hok | apply Hw].
      * destruct (message t =? wmQuit); [exact Hstop | exact Hw].
    + destruct (canceled (platform hk)); [exact Hstop | exact Hw].
  - unfold hotkey.pollStep.
    destruct (heap w !! a) as [hk|]; [|exact Hw].
    destruct (workers w !! a) as [wk|] eqn:Hwk; [|exact Hw].
    destruct (pollers wk !! j) as [p|] eqn:Hj; [|exact Hw].
    pose proof (pollIter_ok hk p state j wk (Hw _ _ Hwk) Hj) as Hok.
    destruct (pollIter hkString hk p state wk) as [[wk' evs] fin].
    intros a' wk''. cbn. rewrite lookup_insert.
    case_decide; [intros [= <-]; exact Hok | apply Hw].
  - unfold hotkey.moveStep.
    destruct (heap w !! a) as [hk|]; [|exact Hw].
    destruct (workers w !! a) as [wk|] eqn:Hwk; [|exact Hw].
    destruct (pollers wk !! j) as [p|] eqn:Hj; [|exact Hw].
    pose proof (pollMove_ok hk p state j wk (Hw _ _ Hwk) Hj) as Hok.
    destruct (pollMove hkString hk p state wk) as [[wk' evs] next].
    intros a' wk''. cbn [workers emit set_workers]. rewrite lookup_insert.
    case_decide; [intros [= <-]; exact Hok | apply Hw].
Qed.

(** X15.  Throughout a program, with the pollers taking their moves one
    at a time and the worker running between any two of them, every worker
    between two iterations of its loop has a poller of the kinds [down] and
    [press] in its loop exactly while its [keyDown] is set and a poller of
    the kind [up] in flight exactly while its [keyUp] is set, never two:
    one poller at most watches the key.  A poller of the kind [press] that
    has met the release is not counted: it runs the second callback and
    clears [keyPress] while a new press may already be served, so such
    pollers can be several; [keyPress] is set only while [keyDown] is set
    or one of them has yet to end. *)
Theorem program_workers_ok calls (w : World) :
  workers_ok w -> workers_ok (program calls w).
Proof.
  apply program_invariant. clear. intros w c Hw.
  destruct c as [m k cbs|m k|str|act]; cbn [hotkey.perform].
  - destruct (Register m k cbs w) as [[e w']|] eqn:HR; [|exact Hw].
    apply Register_cases in HR as [->|(hk & o & _ & _ & _ & ->)];
      [exact Hw|].
    intros a' wk'. cbn [workers]. rewrite lookup_insert.
    case_decide; [intros [= <-]; repeat split; discriminate | apply Hw].
  - destruct (Unregister elsewhere m k w) as [[e w']|] eqn:HU; [|exact Hw].
    apply Unregister_cases in HU as [->|(a & hk & o & _ & _ & ->)];
      exact Hw.
  - exact Hw.
  - now apply step_workers_ok.
Qed.

(** ** Cycles of pressing and releasing *)

Lemma emit_emit evs evs' (w : World) :
  emit evs' (emit evs w) = emit (evs ++ evs') w.
Proof. unfold emit. cbn. now rewrite app_assoc. Qed.

Lemma emit_nil (w : World) : emit [] w = w.
Proof. unfold emit. rewrite app_nil_r. now destruct w. Qed.

Lemma run_no_poller a j wk states (w : World) :
  workers w !! a = Some wk ->
  pollers wk !! j = None ->
  run (map (pollerTick a j) states) w = w.
Proof.
  intros Hwk Hj.
  assert (Hnone : forall state, pollStep a j state w = w).
  { intros state. unfold hotkey.pollStep. rewrite Hwk, Hj.
    now destruct (heap w !! a). }
  induction states as [|state states IH]; [reflexivity|].
  unfold hotkey.run in *. cbn [map fold_left hotkey.step].
  rewrite Hnone. exact IH.
Qed.

Lemma cycle_at_rest a hk held (w : World) :
  heap w !! a = Some hk ->
  workers w !! a = Some newWorker ->
  Forall (fun state => state <> 0) held ->
  run (cycle a held) w = emit (cycleEvents hkString hk) w.
Proof.
  intros Hhk Hwk Hheld. unfold cycle.
  change (run (interrupt a :: ?l) w) with (run l (run [interrupt a] w)).
  rewrite (run_app RegisterHotKey UnregisterHotKey hkString).
  assert (Hdown : run [interrupt a] w =
                  emit (onHotkey hkString hk newWorker).2
                       (set_workers
                          (<[a := (onHotkey hkString hk newWorker).1]>
                             (workers w)) w)).
  { unfold hotkey.run, interrupt. cbn [fold_left hotkey.step].
    unfold hotkey.handleIter. rewrite Hhk, Hwk. cbn.
    now destruct (onHotkey hkString hk newWorker). }
  rewrite Hdown. clear Hdown.
  set (w1 := emit _ _).
  assert (Hhk1 : heap w1 !! a = Some hk) by exact Hhk.
  assert (Hwk1 : workers w1 !! a = Some (onHotkey hkString hk newWorker).1)
    by apply lookup_insert_eq.
  assert (Hfinal : forall wk' (evs1 evs2 : list Event),
             emit evs2
               (set_workers (<[a := newWorker]> (<[a := wk']> (workers w)))
                  (emit evs1 (set_workers (<[a := wk']> (workers w)) w)))
             = emit (evs1 ++ evs2) w).
  { intros wk' evs1 evs2. unfold emit, set_workers. cbn.
    rewrite insert_insert_eq, (insert_id _ _ _ Hwk), app_assoc.
    reflexivity. }
  unfold cycleEvents, onHotkey in *. cbn [keyDown keyUp negb newWorker] in *.
  destruct (String.eqb (Signal hk) "press"),
           (String.eqb (Signal hk) "down"),
           (String.eqb (Signal hk) "up");
    cbn [orb fst snd] in *.
  all: try (
    match type of Hwk1 with
    | _ = Some ?wk1 =>
        assert (Hp : pollers wk1 !! 0%nat = Some (hd pollUp (pollers wk1)))
          by reflexivity;
        rewrite (run_held RegisterHotKey UnregisterHotKey hkString
                   a hk wk1 0 _ held w1 Hhk1 Hwk1 Hp Hheld);
        unfold hotkey.run; cbn [fold_left hotkey.step];
        assert (Hloop : hd pollUp (pollers wk1) = pollDown
                        \/ hd pollUp (pollers wk1) = pollUp)
          by (first [left; reflexivity | right; reflexivity]);
        rewrite (pollStep_release hkString a hk wk1 0 _ w1 Hhk1 Hwk1 Hp
                   Hloop);
        cbn; exact (Hfinal _ _ _)
    end).
  all: rewrite (run_no_poller a 0 newWorker held w1 Hwk1 eq_refl);
    unfold hotkey.run; cbn [fold_left hotkey.step];
    unfold hotkey.pollStep; rewrite Hhk1, Hwk1; cbn;
    unfold w1; rewrite (world_same a newWorker w Hwk);
    symmetry; apply emit_nil.
Qed.

(** X16.  The edge detector re-arms.  Starting from a worker at rest, a
    complete cycle (the hotkey message, any number of poller ticks that
    find the key held, the tick that finds it released) produces the events
    of the signal kind, once, and leaves the world as it was apart from the
    trace: first callback and then second for [press], the first callback
    for [down] (at the message) and for [up] (at the release).  So any
    number of cycles in a row produce that many times these events. *)
Theorem cycles_at_rest a hk helds (w : World) :
  heap w !! a = Some hk ->
  workers w !! a = Some newWorker ->
  Forall (Forall (fun state => state <> 0)) helds ->
  run (concat (map (cycle a) helds)) w
  = emit (concat (map (fun _ => cycleEvents hkString hk) helds)) w.
Proof.
  intros Hhk Hwk Hhelds. revert w Hhk Hwk.
  induction Hhelds as [|held helds Hheld _ IH]; intros w Hhk Hwk.
  - cbn. symmetry. apply emit_nil.
  - cbn [map concat].
    rewrite (run_app RegisterHotKey UnregisterHotKey hkString).
    rewrite (cycle_at_rest a hk held w Hhk Hwk Hheld).
    rewrite IH by assumption. apply emit_emit.
Qed.

(** ** The pollers, one move at a time *)

(** The worker of [a] becomes [wk] and the events [evs] happen. *)
Local Abbreviation upd a wk evs w :=
  (emit evs (set_workers (<[a := wk]> (workers w)) w)).

Lemma upd_upd a wk1 wk2 evs1 evs2 (w : World) :
  upd a wk2 evs2 (upd a wk1 evs1 w) = upd a wk2 (evs1 ++ evs2)%list w.
Proof.
  unfold emit, set_workers. cbn. now rewrite insert_insert_eq, app_assoc.
Qed.

Lemma upd_same a wk evs (w : World) :
  workers w !! a = Some wk -> upd a wk evs w = emit evs w.
Proof.
  intros Hwk. unfold emit, set_workers. cbn. now rewrite (insert_id _ _ _ Hwk).
Qed.

Lemma interrupt_at a hk wk (w : World) :
  heap w !! a = Some hk ->
  workers w !! a = Some wk ->
  running wk = true ->
  step w (interrupt a)
  = upd a (onHotkey hkString hk wk).1 (onHotkey hkString hk wk).2 w.
Proof.
  intros Hhk Hwk Hrun. unfold interrupt. cbn [hotkey.step].
  unfold hotkey.handleIter. rewrite Hhk, Hwk, Hrun. cbn.
  now destruct (onHotkey hkString hk wk).
Qed.

Lemma moveStep_at a j state hk wk p (w : World) :
  heap w !! a = Some hk ->
  workers w !! a = Some wk ->
  pollers wk !! j = Some p ->
  step w (pollerMove a j state)
  = upd a (movePoller j (pollMove hkString hk p state wk).2
             (pollMove hkString hk p state wk).1.1)
        (pollMove hkString hk p state wk).1.2 w.
Proof.
  intros Hhk Hwk Hp. cbn [hotkey.step]. unfold hotkey.moveStep.
  rewrite Hhk, Hwk, Hp.
  now destruct (pollMove hkString hk p state wk) as [[wk' evs] next].
Qed.

Lemma list_delete_insert (q : Poller) : forall (j : nat) (ps : list Poller),
  delete j (<[j := q]> ps) = delete j ps.
Proof.
  intros j ps. revert j.
  induction ps as [|x ps IH]; intros [|j]; try reflexivity.
  change (delete (S j) (<[S j := q]> (x :: ps)))
    with (x :: delete j (<[j := q]> ps)).
  now rewrite IH.
Qed.

Lemma move_then a j state hk q r d u kp ps evs (w : World) :
  heap w !! a = Some hk ->
  (j < List.length ps)%nat ->
  step (upd a (mkWorker r d u kp (<[j := q]> ps)) evs w)
       (pollerMove a j state)
  = let wk1 := mkWorker r d u kp (<[j := q]> ps) in
    upd a (movePoller j (pollMove hkString hk q state wk1).2
             (pollMove hkString hk q state wk1).1.1)
        (evs ++ (pollMove hkString hk q state wk1).1.2)%list w.
Proof.
  intros Hhk Hlt. cbv zeta.
  rewrite (moveStep_at a j state hk
             (mkWorker r d u kp (<[j := q]> ps)) q).
  - apply upd_upd.
  - exact Hhk.
  - apply lookup_insert_eq.
  - now apply list_lookup_insert_eq.
Qed.

(** A tick that a poller in its loop takes as a whole is its moves in a
    row: one while the key is held; on the release two for the kind [up],
    and for the other kinds two or three with [keyPress] clear or set. *)
Lemma pollerTick_moves a j state hk wk p (w : World) :
  heap w !! a = Some hk ->
  workers w !! a = Some wk ->
  pollers wk !! j = Some p ->
  step w (pollerTick a j state)
  = run (repeat (pollerMove a j state) (movesOf p state wk)) w.
Proof.
  intros Hhk Hwk Hp.
  assert (Hlt : (j < List.length (pollers wk))%nat)
    by (apply lookup_lt_is_Some; eauto).
  cbn [hotkey.step]. unfold hotkey.pollStep. rewrite Hhk, Hwk, Hp.
  unfold pollIter, movesOf.
  destruct p.
  3-5: destruct (negb (state =? 0)); unfold hotkey.run;
    cbn [repeat fold_left]; apply world_same, Hwk.
  - destruct (negb (state =? 0)) eqn:Es.
    + unfold hotkey.run. cbn [repeat fold_left].
      rewrite (moveStep_at _ _ _ _ _ _ _ Hhk Hwk Hp).
      unfold pollMove. rewrite Es. cbn [fst snd movePoller].
      rewrite (list_insert_id _ _ _ Hp). now destruct wk.
    + destruct (keyPress wk) eqn:Ep; unfold hotkey.run;
        cbn [repeat fold_left];
        rewrite (moveStep_at _ _ _ _ _ _ _ Hhk Hwk Hp);
        unfold pollMove at 1 2 3; rewrite Es;
        cbn [fst snd movePoller running keyDown keyUp keyPress pollers];
        rewrite (move_then _ _ _ _ _ _ _ _ _ _ _ _ Hhk Hlt); cbv zeta;
        cbn [pollMove keyPress]; rewrite ?Ep;
        cbn [fst snd movePoller dropPoller running keyDown keyUp keyPress
             pollers app].
      * rewrite list_insert_insert_eq.
        rewrite (move_then _ _ _ _ _ _ _ _ _ _ _ _ Hhk Hlt). cbv zeta.
        cbn [pollMove fst snd movePoller dropPoller running keyDown keyUp
             keyPress pollers app].
        unfold dropPoller; cbn [running keyDown keyUp keyPress pollers];
          now rewrite list_delete_insert.
      * unfold dropPoller; cbn [running keyDown keyUp keyPress pollers];
          now rewrite list_delete_insert.
  - destruct (negb (state =? 0)) eqn:Es.
    + unfold hotkey.run. cbn [repeat fold_left].
      rewrite (moveStep_at _ _ _ _ _ _ _ Hhk Hwk Hp).
      unfold pollMove. rewrite Es. cbn [fst snd movePoller].
      rewrite (list_insert_id _ _ _ Hp). now destruct wk.
    + unfold hotkey.run. cbn [repeat fold_left].
      rewrite (moveStep_at _ _ _ _ _ _ _ Hhk Hwk Hp).
      unfold pollMove at 1 2 3. rewrite Es.
      cbn [fst snd movePoller running keyDown keyUp keyPress pollers].
      rewrite (move_then _ _ _ _ _ _ _ _ _ _ _ _ Hhk Hlt). cbv zeta.
      cbn [pollMove fst snd movePoller dropPoller running keyDown keyUp
           keyPress pollers app].
      unfold dropPoller; cbn [running keyDown keyUp keyPress pollers];
          now rewrite list_delete_insert.
Qed.

Lemma step_upd_move a j state hk wk p evs (w : World) :
  heap w !! a = Some hk ->
  pollers wk !! j = Some p ->
  step (upd a wk evs w) (pollerMove a j state)
  = upd a (movePoller j (pollMove hkString hk p state wk).2
             (pollMove hkString hk p state wk).1.1)
        (evs ++ (pollMove hkString hk p state wk).1.2)%list w.
Proof.
  intros Hhk Hp. rewrite (moveStep_at a j state hk wk p).
  - apply upd_upd.
  - exact Hhk.
  - apply lookup_insert_eq.
  - exact Hp.
Qed.

Lemma step_upd_interrupt a hk wk evs (w : World) :
  heap w !! a = Some hk ->
  running wk = true ->
  step (upd a wk evs w) (interrupt a)
  = upd a (onHotkey hkString hk wk).1
        (evs ++ (onHotkey hkString hk wk).2)%list w.
Proof.
  intros Hhk Hrun. rewrite (interrupt_at a hk wk).
  - apply upd_upd.
  - exact Hhk.
  - apply lookup_insert_eq.
  - exact Hrun.
Qed.

(** X18.  A hotkey of the kind [press] whose worker is at rest is
    pressed and released, and pressed again before its poller has ended:
    the poller has met the release and called the second callback, and the
    worker serves the new message meanwhile.  Two pollers of lines 149-165
    are then in flight.  The first ends by clearing [keyPress] (line 160),
    which the worker had set again for the second press, so the second
    poller finds it clear on the release and calls nothing: the first
    callback has run twice and the second once, and the worker is at rest
    again, so the end of the second press is never reported. *)
Theorem press_end_lost a hk (w : World) :
  heap w !! a = Some hk ->
  workers w !! a = Some newWorker ->
  Signal hk = "press" ->
  workers
    (run [interrupt a; pollerMove a 0 0; pollerMove a 0 0; interrupt a] w)
  !! a = Some (mkWorker true true false true [pollDownCalled; pollDown]) /\
  run [interrupt a; pollerMove a 0 0; pollerMove a 0 0; interrupt a;
       pollerMove a 0 0; pollerMove a 0 0; pollerMove a 0 0] w
  = emit [callOrPrint hkString hk 0 " start";
          callOrPrint hkString hk 1 " end";
          callOrPrint hkString hk 0 " start"] w.
Proof.
  intros Hhk Hwk Hsig.
  assert (Hfour :
            run [interrupt a; pollerMove a 0 0; pollerMove a 0 0;
                 interrupt a] w
            = upd a (mkWorker true true false true [pollDownCalled; pollDown])
                [callOrPrint hkString hk 0 " start";
                 callOrPrint hkString hk 1 " end";
                 callOrPrint hkString hk 0 " start"] w).
  { unfold hotkey.run. cbn [fold_left].
    rewrite (interrupt_at a hk newWorker w Hhk Hwk eq_refl).
    unfold onHotkey at 1 2. rewrite Hsig.
    cbn [String.eqb Ascii.eqb Bool.eqb orb negb keyDown newWorker fst snd
         running keyUp keyPress pollers app].
    erewrite (step_upd_move a 0 0 hk); [|exact Hhk|reflexivity].
    cbn [pollMove Z.eqb negb fst snd movePoller running keyDown keyUp
         keyPress pollers app].
    erewrite (step_upd_move a 0 0 hk); [|exact Hhk|reflexivity].
    cbn [pollMove Z.eqb negb fst snd movePoller running keyDown keyUp
         keyPress pollers app].
    erewrite (step_upd_interrupt a hk); [|exact Hhk|reflexivity].
    unfold onHotkey. rewrite Hsig.
    cbn [String.eqb Ascii.eqb Bool.eqb orb negb keyDown fst snd
         running keyUp keyPress pollers app].
    reflexivity. }
  split.
  - rewrite Hfour. apply lookup_insert_eq.
  - change (run [interrupt a; pollerMove a 0 0; pollerMove a 0 0; interrupt a;
                 pollerMove a 0 0; pollerMove a 0 0; pollerMove a 0 0] w)
      with (run [pollerMove a 0 0; pollerMove a 0 0; pollerMove a 0 0]
              (run [interrupt a; pollerMove a 0 0; pollerMove a 0 0;
                    interrupt a] w)).
    rewrite Hfour. unfold hotkey.run. cbn [fold_left].
    erewrite (step_upd_move a 0 0 hk); [|exact Hhk|reflexivity].
    cbn [pollMove Z.eqb negb fst snd movePoller dropPoller running keyDown
         keyUp keyPress pollers app].
    erewrite (step_upd_move a 0 0 hk); [|exact Hhk|reflexivity].
    cbn [pollMove Z.eqb negb fst snd movePoller dropPoller running keyDown
         keyUp keyPress pollers app].
    erewrite (step_upd_move a 0 0 hk); [|exact Hhk|reflexivity].
    cbn [pollMove Z.eqb negb fst snd movePoller dropPoller running keyDown
         keyUp keyPress pollers app].
    apply upd_same. exact Hwk.
Qed.

End EngineMore.

(** ** The further properties at work *)

Section MoreWitnesses.

Import Scenario.

Local Abbreviation a1 := (1%positive).
Local Abbreviation w0 := (SimOS.start []).

Lemma registered_mask_witness :
  List.length (Split "ctrl_z_shift" "_") <> 2%nat /\
  Split "wa_z" "_" = ["wa"; "z"] /\
  modBits (getModifier (modifierSortOf (getHkInfo "_" "ctrl_z_shift" "")))
  = ModCtrl + ModShift /\
  modBits (getModifier (modifierSortOf (getHkInfo "_" "wa_z" "")))
  = ModWin + ModAlt.
Proof.
  assert (H1 : List.length (Split "ctrl_z_shift" "_") <> 2%nat)
    by (vm_compute; discriminate).
  assert (H2 : Split "wa_z" "_" = ["wa"; "z"]) by reflexivity.
  split; [exact H1|]. split; [exact H2|]. split.
  - rewrite (proj1 (registered_mask "_" "ctrl_z_shift" "") H1). reflexivity.
  - rewrite (proj2 (registered_mask "_" "wa_z" "") "wa" "z" H2). reflexivity.
Defined.

Lemma getHkInfo_keyName_witness :
  List.length (Split "x_ctrl_z_shift" "_") <> 2%nat /\
  Split "z_ctrl" "_" = ["z"; "ctrl"] /\
  keyNameOf (getHkInfo "_" "x_ctrl_z_shift" "") = "z" /\
  keyNameOf (getHkInfo "_" "z_ctrl" "") = "ctrl".
Proof.
  assert (H1 : List.length (Split "x_ctrl_z_shift" "_") <> 2%nat)
    by (vm_compute; discriminate).
  assert (H2 : Split "z_ctrl" "_" = ["z"; "ctrl"]) by reflexivity.
  split; [exact H1|]. split; [exact H2|]. split.
  - rewrite (proj1 (getHkInfo_keyName "_" "x_ctrl_z_shift" "") H1).
    reflexivity.
  - exact (proj2 (getHkInfo_keyName "_" "z_ctrl" "") "z" "ctrl" H2).
Defined.

Lemma identity_injective_witness :
  is_Some (keyCodeWin !! keyNameOf (getHkInfo (splitStr w0) "sc_z" "up")) /\
  is_Some
    (keyCodeWin !! keyNameOf (getHkInfo (splitStr w0) "shift_z_ctrl" "up")) /\
  identity w0 "sc_z" "up" = identity w0 "shift_z_ctrl" "up" /\
  getHkInfo (splitStr w0) "sc_z" "up"
  = getHkInfo (splitStr w0) "shift_z_ctrl" "up".
Proof.
  assert (H1 : is_Some
                 (keyCodeWin !! keyNameOf (getHkInfo (splitStr w0) "sc_z" "up")))
    by (exists 0x5A; vm_compute; reflexivity).
  assert (H2 : is_Some
                 (keyCodeWin
                  !! keyNameOf (getHkInfo (splitStr w0) "shift_z_ctrl" "up")))
    by (exists 0x5A; vm_compute; reflexivity).
  assert (H3 : identity w0 "sc_z" "up" = identity w0 "shift_z_ctrl" "up")
    by (vm_compute; reflexivity).
  repeat (split; [assumption|]).
  exact (identity_injective w0 "sc_z" "up" "shift_z_ctrl" "up" H1 H2 H3).
Defined.

Lemma String_registered_witness :
  Session.order ≡ₚ map_to_list keyCodeWin /\
  keyCodeWin !! "z" = Some 0x5A /\
  0x5A <> 0x1B /\
  String_ Session.order hk_up = " ctrl shift  z up".
Proof.
  assert (H1 : Session.order ≡ₚ map_to_list keyCodeWin) by reflexivity.
  assert (H2 : keyCodeWin !! "z" = Some 0x5A) by (vm_compute; reflexivity).
  assert (H3 : 0x5A <> 0x1B) by discriminate.
  repeat (split; [assumption|]).
  exact (proj1 (String_registered Session.order false true true false "z"
                  0x5A "up" [7%nat] (mkPlatformHotkey 1 true false) H1 H2)
               H3).
Defined.

Lemma Register_returns_witness :
  keyCodeWin !! keyNameOf (getHkInfo (splitStr w0) "CS_Z" "") = None /\
  SimOS.Register "CS_Z" "" [7%nat] w0 = Some (Some errKey, w0).
Proof.
  assert (H : keyCodeWin !! keyNameOf (getHkInfo (splitStr w0) "CS_Z" "")
              = None) by (vm_compute; reflexivity).
  split; [exact H|].
  destruct (Register_returns SimOS.RegisterHotKey SimOS.UnregisterHotKey
              SimOS.hkString "CS_Z" "" [7%nat] w0) as (e & w' & HR & Hkey).
  destruct (Hkey H) as [-> ->]. exact HR.
Defined.

Lemma Register_accepted_witness :
  keyCodeWin !! keyNameOf (getHkInfo (splitStr w0) "cs_z" "up") = Some 0x5A /\
  SimOS.RegisterHotKey 0 ((hotkeyIdVar w0 + 1) mod 2 ^ 64)
    (modBits (getModifier (modifierSortOf (getHkInfo (splitStr w0) "cs_z" "up"))))
    0x5A (os w0) = (true, None, [(1, 6, 0x5A)]) /\
  exists w',
    SimOS.Register "cs_z" "up" [7%nat] w0 = Some (None, w') /\
    registeredHotkey w' !! "cszup" = Some a1 /\
    heap w' !! a1 = Some hk_up.
Proof.
  assert (H1 : keyCodeWin !! keyNameOf (getHkInfo (splitStr w0) "cs_z" "up")
               = Some 0x5A) by (vm_compute; reflexivity).
  assert (H2 : SimOS.RegisterHotKey 0 ((hotkeyIdVar w0 + 1) mod 2 ^ 64)
                 (modBits
                    (getModifier
                       (modifierSortOf (getHkInfo (splitStr w0) "cs_z" "up"))))
                 0x5A (os w0) = (true, None, [(1, 6, 0x5A)]))
    by (vm_compute; reflexivity).
  split; [exact H1|]. split; [exact H2|].
  destruct (Register_accepted SimOS.RegisterHotKey SimOS.UnregisterHotKey
              SimOS.hkString "cs_z" "up" [7%nat] 0x5A None [(1, 6, 0x5A)] w0
              H1 H2) as (w' & HR & Hentry & Hhk & _).
  exists w'. split; [exact HR|]. split; [exact Hentry | exact Hhk].
Defined.

Lemma Register_Unregister_witness :
  known elsewhere w0 /\
  registeredHotkey w0 !! identity w0 "cs_z" "up" = None /\
  keyCodeWin !! keyNameOf (getHkInfo (splitStr w0) "cs_z" "up") = Some 0x5A /\
  SimOS.RegisterHotKey 0 ((hotkeyIdVar w0 + 1) mod 2 ^ 64)
    (modBits (getModifier (modifierSortOf (getHkInfo (splitStr w0) "cs_z" "up"))))
    0x5A (os w0) = (true, None, [(1, 6, 0x5A)]) /\
  exists w1 w2,
    SimOS.Register "cs_z" "up" [7%nat] w0 = Some (None, w1) /\
    SimOS.Unregister elsewhere "cs_z" "up" w1 = Some (None, w2) /\
    registeredHotkey w2 = registeredHotkey w0.
Proof.
  assert (Hc : known elsewhere w0) by exact I.
  assert (H0 : registeredHotkey w0 !! identity w0 "cs_z" "up" = None)
    by reflexivity.
  assert (H1 : keyCodeWin !! keyNameOf (getHkInfo (splitStr w0) "cs_z" "up")
               = Some 0x5A) by (vm_compute; reflexivity).
  assert (H2 : SimOS.RegisterHotKey 0 ((hotkeyIdVar w0 + 1) mod 2 ^ 64)
                 (modBits
                    (getModifier
                       (modifierSortOf (getHkInfo (splitStr w0) "cs_z" "up"))))
                 0x5A (os w0) = (true, None, [(1, 6, 0x5A)]))
    by (vm_compute; reflexivity).
  repeat (split; [assumption|]).
  destruct (Register_Unregister SimOS.RegisterHotKey SimOS.UnregisterHotKey
              SimOS.hkString elsewhere "cs_z" "up" [7%nat] 0x5A None
              [(1, 6, 0x5A)] w0 Hc H0 H1 H2)
    as (w1 & w2 & hk & HR & HU & Hreg & _).
  exists w1, w2. auto.
Defined.

Lemma Register_frame_witness :
  (exists w',
     SimOS.Register "ctrl_alt_delete" "press" [3%nat; 4%nat] w_up
     = Some (None, w') /\
     registeredHotkey w' !! "cszup" = Some a1 /\
     heap w' !! a1 = Some hk_up /\ trace w' = trace w_up).
Proof.
  destruct (SimOS.Register "ctrl_alt_delete" "press" [3%nat; 4%nat] w_up)
    as [[e w']|] eqn:HR; [|vm_compute in HR; discriminate HR].
  destruct (Register_frame SimOS.RegisterHotKey SimOS.UnregisterHotKey
              SimOS.hkString "ctrl_alt_delete" "press" [3%nat; 4%nat] e
              w_up w' HR) as (_ & Htrace & Hreg & Hheap).
  assert (He : e = None).
  { vm_compute in HR. now injection HR as <- _. }
  exists w'. subst e. split; [reflexivity|]. split; [|split].
  - rewrite Hreg; [reflexivity | vm_compute; discriminate].
  - apply (Hheap a1). apply elem_of_dom. exists hk_up. reflexivity.
  - exact Htrace.
Defined.

Lemma Unregister_frame_witness :
  exists w',
    SimOS.Unregister elsewhere "cs_z" "up" w_waiting = Some (None, w') /\
    workers w' = workers w_waiting /\ trace w' = trace w_waiting.
Proof.
  destruct (SimOS.Unregister elsewhere "cs_z" "up" w_waiting)
    as [[e w']|] eqn:HU; [|vm_compute in HU; discriminate HU].
  destruct (Unregister_frame SimOS.RegisterHotKey SimOS.UnregisterHotKey
              SimOS.hkString elsewhere "cs_z" "up" e w_waiting w' HU)
    as (_ & Htrace & Hworkers & _).
  assert (He : e = None).
  { vm_compute in HU. now injection HU as <- _. }
  exists w'. subst e. auto.
Defined.


Lemma refused_worker_leaves_witness :
  keyCodeWin !! keyNameOf (getHkInfo (splitStr w_foreign) "ctrl_z" "")
  = Some 0x5A /\
  SimOS.RegisterHotKey 0 ((hotkeyIdVar w_foreign + 1) mod 2 ^ 64)
    (modBits
       (getModifier
          (modifierSortOf (getHkInfo (splitStr w_foreign) "ctrl_z" ""))))
    0x5A (os w_foreign)
  = (false, Some (winError 1409), [(99, 2, 0x5A)]) /\
  peek idleTick = false /\
  exists w',
    SimOS.Register "ctrl_z" "" [] w_foreign = Some (Some (winError 1409), w')
    /\ handleIter SimOS.RegisterHotKey SimOS.UnregisterHotKey SimOS.hkString
         a1 None idleTick w'
       = Some (stopWorker a1 w', returned exitCanceled).
Proof.
  assert (H1 : keyCodeWin
               !! keyNameOf (getHkInfo (splitStr w_foreign) "ctrl_z" "")
               = Some 0x5A) by (vm_compute; reflexivity).
  assert (H2 : SimOS.RegisterHotKey 0 ((hotkeyIdVar w_foreign + 1) mod 2 ^ 64)
                 (modBits
                    (getModifier
                       (modifierSortOf
                          (getHkInfo (splitStr w_foreign) "ctrl_z" ""))))
                 0x5A (os w_foreign)
               = (false, Some (winError 1409), [(99, 2, 0x5A)]))
    by (vm_compute; reflexivity).
  assert (H3 : peek idleTick = false) by reflexivity.
  repeat (split; [assumption|]).
  destruct (refused_worker_leaves SimOS.RegisterHotKey SimOS.UnregisterHotKey
              SimOS.hkString "ctrl_z" "" [] 0x5A (Some (winError 1409))
              [(99, 2, 0x5A)] idleTick w_foreign H1 H2 H3)
    as (w' & HR & Hleave & _).
  exists w'. split; [exact HR | exact Hleave].
Defined.

Lemma start_registry_wf : registry_wf w0.
Proof. split; [reflexivity|]. intros k a H. discriminate H. Qed.

Lemma start_channels_ok : channels_ok w0.
Proof. intros a hk H. discriminate H. Qed.

Lemma start_ids_ok : ids_ok w0.
Proof.
  split; [reflexivity|]. split; intros a; intros; discriminate.
Qed.

Lemma start_workers_ok : workers_ok w0.
Proof. intros a wk H. discriminate H. Qed.

Lemma program_registry_wf_witness :
  registry_wf w0 /\ registry_wf (Session.program Session.calls w0).
Proof.
  split; [exact start_registry_wf|].
  exact (program_registry_wf SimOS.RegisterHotKey SimOS.UnregisterHotKey
           SimOS.hkString Session.calls w0 start_registry_wf).
Defined.

Lemma program_channels_ok_witness :
  channels_ok w0 /\ channels_ok (Session.program Session.calls w0).
Proof.
  split; [exact start_channels_ok|].
  exact (program_channels_ok SimOS.RegisterHotKey SimOS.UnregisterHotKey
           SimOS.hkString Session.calls w0 start_channels_ok).
Defined.

Lemma program_ids_ok_witness :
  ids_ok w0 /\
  hotkeyIdVar w0 + Z.of_nat (List.length Session.calls) < 2 ^ 64 /\
  ids_ok (Session.program Session.calls w0).
Proof.
  assert (H : hotkeyIdVar w0 + Z.of_nat (List.length Session.calls) < 2 ^ 64)
    by (vm_compute; reflexivity).
  split; [exact start_ids_ok|]. split; [exact H|].
  exact (program_ids_ok SimOS.RegisterHotKey SimOS.UnregisterHotKey
           SimOS.hkString Session.calls w0 start_ids_ok H).
Defined.

Lemma program_workers_ok_witness :
  workers_ok w0 /\
  workers (Session.program Session.overlap w0) !! a1
  = Some (mkWorker true true false true [pollDownCalled; pollDown]) /\
  workers_ok (Session.program Session.overlap w0) /\
  workers_ok (Session.program Session.calls w0).
Proof.
  split; [exact start_workers_ok|]. split; [vm_compute; reflexivity|]. split.
  - exact (program_workers_ok SimOS.RegisterHotKey SimOS.UnregisterHotKey
             SimOS.hkString Session.overlap w0 start_workers_ok).
  - exact (program_workers_ok SimOS.RegisterHotKey SimOS.UnregisterHotKey
             SimOS.hkString Session.calls w0 start_workers_ok).
Defined.

Lemma cycles_at_rest_witness :
  heap (w_press [3; 4]%nat) !! a1 = Some (hk_press [3; 4]%nat) /\
  workers (w_press [3; 4]%nat) !! a1 = Some newWorker /\
  Forall (Forall (fun state => state <> 0)) [[1; 1]; []] /\
  trace (SimOS.run (concat (map (cycle a1) [[1; 1]; []]))
           (w_press [3; 4]%nat))
  = [Invoke 3%nat; Invoke 4%nat; Invoke 3%nat; Invoke 4%nat].
Proof.
  assert (H1 : heap (w_press [3; 4]%nat) !! a1 = Some (hk_press [3; 4]%nat))
    by reflexivity.
  assert (H2 : workers (w_press [3; 4]%nat) !! a1 = Some newWorker)
    by reflexivity.
  assert (H3 : Forall (Forall (fun state => state <> 0)) [[1; 1]; []])
    by (repeat constructor; discriminate).
  repeat (split; [assumption|]).
  unfold SimOS.run.
  rewrite (cycles_at_rest SimOS.RegisterHotKey SimOS.UnregisterHotKey
             SimOS.hkString a1 (hk_press [3; 4]%nat) [[1; 1]; []]
             (w_press [3; 4]%nat) H1 H2 H3).
  reflexivity.
Defined.

Lemma press_end_lost_witness :
  heap (w_press [3; 4]%nat) !! a1 = Some (hk_press [3; 4]%nat) /\
  workers (w_press [3; 4]%nat) !! a1 = Some newWorker /\
  Signal (hk_press [3; 4]%nat) = "press" /\
  trace (SimOS.run [interrupt a1; pollerMove a1 0 0; pollerMove a1 0 0;
                    interrupt a1; pollerMove a1 0 0; pollerMove a1 0 0;
                    pollerMove a1 0 0] (w_press [3; 4]%nat))
  = [Invoke 3%nat; Invoke 4%nat; Invoke 3%nat] /\
  workers (SimOS.run [interrupt a1; pollerMove a1 0 0; pollerMove a1 0 0;
                      interrupt a1; pollerMove a1 0 0; pollerMove a1 0 0;
                      pollerMove a1 0 0] (w_press [3; 4]%nat)) !! a1
  = Some newWorker.
Proof.
  assert (H1 : heap (w_press [3; 4]%nat) !! a1 = Some (hk_press [3; 4]%nat))
    by reflexivity.
  assert (H2 : workers (w_press [3; 4]%nat) !! a1 = Some newWorker)
    by reflexivity.
  assert (H3 : Signal (hk_press [3; 4]%nat) = "press") by reflexivity.
  repeat (split; [assumption|]).
  unfold SimOS.run.
  rewrite (proj2 (press_end_lost SimOS.RegisterHotKey SimOS.UnregisterHotKey
                    SimOS.hkString a1 (hk_press [3; 4]%nat)
                    (w_press [3; 4]%nat) H1 H2 H3)).
  split; reflexivity.
Defined.

End MoreWitnesses.

(** ** The earlier [getHkInfo] *)

Section Legacy.

Variable Fields : string -> list string.
Variable ToLower : string -> string.

Lemma keyStep_shape st v0 :
  (st.1.1 = "" \/ st.1.1 = "down" \/ st.1.1 = "up") ->
  st.1.2 <> "down" /\ st.1.2 <> "up" ->
  let st' := legacy.keyStep ToLower st v0 in
  (st'.1.1 = "" \/ st'.1.1 = "down" \/ st'.1.1 = "up") /\
  st'.1.2 <> "down" /\ st'.1.2 <> "up".
Proof.
  destruct st as [[signal keyName] broke]. cbn [fst snd].
  intros Hs Hk. unfold legacy.keyStep.
  destruct broke; [cbn; auto|].
  destruct (String.eqb_spec (ToLower v0) "down") as [->|Nd].
  { destruct (String.eqb signal ""); cbn; auto. }
  destruct (String.eqb_spec (ToLower v0) "up") as [->|Nu].
  { destruct (String.eqb signal ""); cbn; auto. }
  destruct (String.eqb keyName ""); cbn; auto.
Qed.

(** X17.  The earlier [getHkInfo], whatever the second argument holds:
    the signal is ["down"] or ["up"], never ["press"]; the key name is
    never ["down"] nor ["up"], so the arrow keys the table lists under these
    names cannot be registered through it; and the modifiers come out as in
    the short form of the later parser, a sub-word of ["wcsa"] read off the
    characters of the first argument. *)
Theorem legacy_getHkInfo_shape modifier key :
  let info := legacy.getHkInfo Fields ToLower modifier key in
  (signalOf info = "down" \/ signalOf info = "up") /\
  keyNameOf info <> "down" /\ keyNameOf info <> "up" /\
  modifierSortOf info
  = let l := Split modifier "" in
    canon (has "w" l) (has "c" l) (has "s" l) (has "a" l).
Proof.
  cbv zeta. unfold legacy.getHkInfo.
  assert (Hfold : forall l st,
             (st.1.1 = "" \/ st.1.1 = "down" \/ st.1.1 = "up") ->
             st.1.2 <> "down" /\ st.1.2 <> "up" ->
             let st' := fold_left (legacy.keyStep ToLower) l st in
             (st'.1.1 = "" \/ st'.1.1 = "down" \/ st'.1.1 = "up") /\
             st'.1.2 <> "down" /\ st'.1.2 <> "up").
  { induction l as [|v l IH]; intros st Hs Hk; [cbn; auto|].
    cbn [fold_left].
    destruct (keyStep_shape st v Hs Hk) as [Hs' Hk']. now apply IH. }
  destruct (Hfold (Fields key) ("", "", false)) as (Hs & Hd & Hu);
    [cbn; auto | cbn; split; discriminate|].
  destruct (fold_left (legacy.keyStep ToLower) (Fields key) ("", "", false))
    as [[signal keyName] broke].
  cbn [fst snd signalOf keyNameOf modifierSortOf] in *.
  split; [|split; [exact Hd | split; [exact Hu|]]].
  - destruct Hs as [-> | [-> | ->]]; cbn; auto.
  - destruct (Nat.ltb_spec 0 (String.length modifier)) as [_|Hlen].
    + change k0_init with (k0_of false false false false).
      rewrite fold_shortStep. reflexivity.
    + destruct modifier; [reflexivity | cbn in Hlen; lia].
Qed.

End Legacy.
